(** * hospital_a.py: replication of patient records over a fanout exchange

    A shallow embedding of [src/proj/hospital_a.py]: the REST handlers that
    publish change events, and the consumer callback that applies the events
    of the other hospitals to the local SQLite table through an SQLAlchemy
    session.

    Scope of the model.
    - Python values are the ones [json.loads] builds (without non-integer
      numbers) plus [datetime].
    - A computation returns [Ok], raises a Python exception ([Raise]) or
      leaves the model ([OutOfModel]): the model says nothing about what
      Python does there (a timestamp spelling this file does not parse, a
      value SQLite would coerce on storage, ...).
    - The broker is reachable or not ([broker_up]); a connection that
      breaks after it was opened is not modelled.
    - One thread at a time: the interleaving of the Flask handlers with the
      consumer thread is not modelled. *)

From Stdlib Require Import ZArith String Ascii List Lia Bool.
From stdpp Require Import base option list gmap strings pretty sorting.
Import ListNotations.
Set Warnings "-register-all".
Local Open Scope string_scope.
Local Open Scope Z_scope.

(** ** [datetime] and its ISO 8601 text *)

(** A naive [datetime.datetime] (no [tzinfo]). *)
Record datetime : Type := mk_datetime {
  year : Z; month : Z; day : Z;
  hour : Z; minute : Z; second : Z; microsecond : Z
}.

Definition is_leap (y : Z) : bool :=
  (y mod 4 =? 0) && negb (y mod 100 =? 0) || (y mod 400 =? 0).

Definition days_in_month (y m : Z) : Z :=
  match m with
  | 2 => if is_leap y then 29 else 28
  | 4 | 6 | 9 | 11 => 30
  | _ => 31
  end.

(** The field ranges the [datetime] constructor enforces. *)
Definition datetime_ok (t : datetime) : bool :=
  (1 <=? year t) && (year t <=? 9999) &&
  (1 <=? month t) && (month t <=? 12) &&
  (1 <=? day t) && (day t <=? days_in_month (year t) (month t)) &&
  (0 <=? hour t) && (hour t <? 24) && (0 <=? minute t) && (minute t <? 60) &&
  (0 <=? second t) && (second t <? 60) &&
  (0 <=? microsecond t) && (microsecond t <? 1000000).

(** Python orders naive datetimes field by field. *)
Definition dt_fields (t : datetime) : list Z :=
  [year t; month t; day t; hour t; minute t; second t; microsecond t].

Fixpoint lex_lt (a b : list Z) : bool :=
  match a, b with
  | x :: a', y :: b' => (x <? y) || ((x =? y) && lex_lt a' b')
  | [], _ :: _ => true
  | _, [] => false
  end.

Definition dt_lt (a b : datetime) : bool := lex_lt (dt_fields a) (dt_fields b).

(** [width] decimal digits of [n], most significant first (["%0<width>d"]). *)
Fixpoint show_digits (width : nat) (n : Z) : list ascii :=
  match width with
  | O => []
  | S w => show_digits w (n / 10) ++ [ascii_of_N (Z.to_N (48 + n mod 10))]
  end.

(** [datetime.isoformat()] of a naive datetime:
    [YYYY-MM-DDTHH:MM:SS], followed by [.ffffff] when [microsecond] is not 0. *)
Definition isoformat (t : datetime) : string :=
  string_of_list_ascii
    (show_digits 4 (year t) ++ ["-"%char] ++ show_digits 2 (month t) ++ ["-"%char] ++
     show_digits 2 (day t) ++ ["T"%char] ++
     show_digits 2 (hour t) ++ [":"%char] ++ show_digits 2 (minute t) ++ [":"%char] ++
     show_digits 2 (second t) ++
     (if microsecond t =? 0 then [] else "."%char :: show_digits 6 (microsecond t))).

Definition digit (c : ascii) : option Z :=
  let n := Z.of_N (N_of_ascii c) in
  if (48 <=? n) && (n <=? 57) then Some (n - 48) else None.

Fixpoint read_digits (k : nat) (acc : Z) (cs : list ascii) : option (Z * list ascii) :=
  match k with
  | O => Some (acc, cs)
  | S k' =>
      match cs with
      | c :: cs' =>
          match digit c with
          | Some d => read_digits k' (10 * acc + d) cs'
          | None => None
          end
      | [] => None
      end
  end.

Definition read_char (c : ascii) (cs : list ascii) : option (list ascii) :=
  match cs with
  | c' :: cs' => if Ascii.eqb c c' then Some cs' else None
  | [] => None
  end.

(** [datetime.fromisoformat] on the texts [isoformat] writes for naive
    datetimes. [None] means the text is not of that form: Python may still
    accept it (a date alone, another separator, an offset) or raise
    [ValueError]; the callers below leave the model there. *)
Definition fromisoformat (s : string) : option datetime :=
  '(y, cs) ← read_digits 4 0 (list_ascii_of_string s);
  cs ← read_char "-" cs;
  '(mo, cs) ← read_digits 2 0 cs;
  cs ← read_char "-" cs;
  '(d, cs) ← read_digits 2 0 cs;
  cs ← read_char "T" cs;
  '(h, cs) ← read_digits 2 0 cs;
  cs ← read_char ":" cs;
  '(mi, cs) ← read_digits 2 0 cs;
  cs ← read_char ":" cs;
  '(se, cs) ← read_digits 2 0 cs;
  us ← match cs with
       | [] => Some 0
       | _ =>
           cs ← read_char "." cs;
           '(us, cs) ← read_digits 6 0 cs;
           match cs with [] => Some us | _ => None end
       end;
  let t := mk_datetime y mo d h mi se us in
  if datetime_ok t then Some t else None.

(** ** Python values *)

(** The values [json.loads] returns, and [datetime]. JSON numbers with a
    fraction or an exponent (Python [float]) are left out of the model. *)
Inductive pyval : Type :=
| PNone
| PBool (b : bool)
| PInt (z : Z)
| PStr (s : string)
| PList (l : list pyval)
| PDict (d : list (string * pyval))
| PDatetime (t : datetime).

(** A [dict] with string keys, as the list of its items in insertion order. *)
Abbreviation dict := (list (string * pyval)).

Fixpoint dict_get (d : dict) (k : string) : option pyval :=
  match d with
  | [] => None
  | (k', v) :: d' => if String.eqb k' k then Some v else dict_get d' k
  end.

Inductive exn : Type :=
| JSONDecodeError
| KeyError (k : string)
| TypeError
| ValueError
| AttributeError
| OverflowError
| IntegrityError
| ProgrammingError
| InvalidRequestError
| BadRequest
| AMQPConnectionError.

(** ** Computations: state, exceptions, and the edge of the model *)

(** How a computation ends: with a value, with a Python exception, or where
    the model stops describing Python. With [Raise] and [OutOfModel] the
    world returned is the one reached when the computation stopped. *)
Inductive outcome (A : Type) : Type :=
| Ok (a : A)
| Raise (e : exn)
| OutOfModel.
Arguments Ok {A} a.
Arguments Raise {A} e.
Arguments OutOfModel {A}.

(** *** The table, the instances and the world *)

(** A row of the [patient] table, [class Patient(db.Model)]: the columns
    other than the primary key [id], all of them [nullable=False]. The table
    is a map from [id] to the rest of the row. *)
Record Patient : Type := mk_Patient {
  name : string;
  age : Z;
  diagnosis_TEXT : string;
  last_update : datetime
}.

(** Where a [Patient] instance stands with respect to the session. *)
Inductive ostate : Type :=
| Transient      (* built by the constructor, not added *)
| Pending        (* added, INSERT not yet emitted *)
| Persistent     (* has a row in the open transaction *)
| MarkedDeleted  (* [session.delete] called, DELETE not yet emitted *)
| Detached.      (* no longer tracked; the attributes stay readable *)

(** A [Patient] instance in memory. Its attributes hold whatever Python value
    was assigned; [PNone] also stands for an attribute never set. *)
Record PatientObj : Type := mk_PatientObj {
  o_state : ostate;
  o_id : pyval;
  o_name : pyval;
  o_age : pyval;
  o_diagnosis_TEXT : pyval;
  o_last_update : pyval
}.

(** The calls whose order in time the specification speaks of. *)
Inductive op : Type :=
| OpAck                  (* the broker counts the delivered message as acknowledged *)
| OpQueryGet (key : pyval)
| OpQueryDelete
| OpAdd
| OpDelete
| OpCommit
| OpRollback
| OpRemove.              (* [session.remove()] at app-context teardown *)

(** The state one thread sees. [db] holds the committed rows of
    [hospital_a.db] keyed by [id]; [txn] is the table as the session's
    open transaction sees it; [heap] holds the [Patient] instances of the
    current app context, a reference being an index into it; [broker_up]
    says whether the RabbitMQ broker accepts the connection that
    [send_to_broker] opens. *)
Record world : Type := mk_world {
  db : gmap Z Patient;
  txn : gmap Z Patient;
  heap : list PatientObj;
  clock : datetime;            (* what [datetime.now()] returns *)
  exchange : list pyval;       (* bodies published to [patients_exchange], oldest first *)
  broker_up : bool;            (* whether the broker accepts a connection *)
  trace : list op              (* oldest first *)
}.

(** *** The monad *)

Definition M (A : Type) : Type := world -> outcome A * world.

Definition ret {A} (a : A) : M A := fun w => (Ok a, w).

Definition bind {A B} (m : M A) (k : A -> M B) : M B :=
  fun w =>
    match m w with
    | (Ok a, w') => k a w'
    | (Raise e, w') => (Raise e, w')
    | (OutOfModel, w') => (OutOfModel, w')
    end.

Definition raise {A} (e : exn) : M A := fun w => (Raise e, w).
Definition out_of_model {A} : M A := fun w => (OutOfModel, w).
Definition lift {A} (o : outcome A) : M A := fun w => (o, w).

(** [try: m except E: h] for the exceptions [catches] selects. *)
Definition try_except {A} (m : M A) (catches : exn -> bool) (h : M A) : M A :=
  fun w =>
    match m w with
    | (Raise e, w') => if catches e then h w' else (Raise e, w')
    | r => r
    end.

Declare Scope py_scope.
Delimit Scope py_scope with py.
Notation "x <- m ;; k" := (bind m (fun x => k))
  (at level 100, m at next level, right associativity) : py_scope.
Notation "m ;; k" := (bind m (fun _ => k))
  (at level 100, right associativity) : py_scope.
Local Open Scope py_scope.

Definition get_world : M world := fun w => (Ok w, w).
Definition log (o : op) : M unit :=
  fun w => (Ok tt, mk_world (db w) (txn w) (heap w) (clock w) (exchange w) (broker_up w)
                      (trace w ++ [o])).
Definition set_txn (t : gmap Z Patient) : M unit :=
  fun w => (Ok tt, mk_world (db w) t (heap w) (clock w) (exchange w) (broker_up w) (trace w)).
Definition set_db (t : gmap Z Patient) : M unit :=
  fun w => (Ok tt, mk_world t (txn w) (heap w) (clock w) (exchange w) (broker_up w) (trace w)).
Definition set_heap (h : list PatientObj) : M unit :=
  fun w => (Ok tt, mk_world (db w) (txn w) h (clock w) (exchange w) (broker_up w) (trace w)).
Definition set_exchange (x : list pyval) : M unit :=
  fun w => (Ok tt, mk_world (db w) (txn w) (heap w) (clock w) x (broker_up w) (trace w)).

(** ** The SQLAlchemy session over the [patient] table *)

Inductive attr : Type := a_id | a_name | a_age | a_diagnosis_TEXT | a_last_update.

Definition obj_get (o : PatientObj) (f : attr) : pyval :=
  match f with
  | a_id => o_id o
  | a_name => o_name o
  | a_age => o_age o
  | a_diagnosis_TEXT => o_diagnosis_TEXT o
  | a_last_update => o_last_update o
  end.

Definition obj_set (o : PatientObj) (f : attr) (v : pyval) : PatientObj :=
  match f with
  | a_id => mk_PatientObj (o_state o) v (o_name o) (o_age o) (o_diagnosis_TEXT o) (o_last_update o)
  | a_name => mk_PatientObj (o_state o) (o_id o) v (o_age o) (o_diagnosis_TEXT o) (o_last_update o)
  | a_age => mk_PatientObj (o_state o) (o_id o) (o_name o) v (o_diagnosis_TEXT o) (o_last_update o)
  | a_diagnosis_TEXT => mk_PatientObj (o_state o) (o_id o) (o_name o) (o_age o) v (o_last_update o)
  | a_last_update => mk_PatientObj (o_state o) (o_id o) (o_name o) (o_age o) (o_diagnosis_TEXT o) v
  end.

Definition obj_set_state (o : PatientObj) (st : ostate) : PatientObj :=
  mk_PatientObj st (o_id o) (o_name o) (o_age o) (o_diagnosis_TEXT o) (o_last_update o).

(** A loaded (or just flushed) instance shows the row's column values. *)
Definition obj_of_row (z : Z) (r : Patient) : PatientObj :=
  mk_PatientObj Persistent (PInt z) (PStr (name r)) (PInt (age r))
    (PStr (diagnosis_TEXT r)) (PDatetime (last_update r)).

Definition deref (a : nat) : M PatientObj :=
  fun w => match heap w !! a with
           | Some o => (Ok o, w)
           | None => (OutOfModel, w)
           end.

(** [p.f] *)
Definition getattr (a : nat) (f : attr) : M pyval :=
  o <- deref a ;; ret (obj_get o f).

(** [p.f = v] *)
Definition setattr (a : nat) (f : attr) (v : pyval) : M unit :=
  o <- deref a ;;
  w <- get_world ;;
  set_heap (<[a := obj_set o f v]> (heap w)).

(** [Patient(id=.., name=.., age=.., diagnosis_TEXT=.., last_update=..)];
    a keyword left out is passed as [PNone]. *)
Definition new_Patient (i n a g t : pyval) : M nat :=
  w <- get_world ;;
  set_heap (heap w ++ [mk_PatientObj Transient i n a g t]) ;;
  ret (length (heap w)).

(** SQLite stores integers in 64 bits. *)
Definition is_int64 (z : Z) : bool := (- 2 ^ 63 <=? z) && (z <? 2 ^ 63).

(** A statement reaches SQLite in three steps. SQLAlchemy first prepares the
    parameters: its [DateTime] type takes a [datetime] or [None] (another
    value is refused there; no handler assigns one, and the model stops).
    The [sqlite3] driver then binds every parameter, in the order of the
    statement: [None], a text and an integer of 64 bits are bound, a larger
    integer raises [OverflowError], a list or a dict [ProgrammingError]
    (as Python 3.11 and later name it); a [datetime] goes through the
    driver's deprecated adapter, outside the model. Only then the statement
    runs. *)
Definition process_datetime (v : pyval) : outcome unit :=
  match v with
  | PNone | PDatetime _ => Ok tt
  | _ => OutOfModel
  end.

Definition driver_bind (v : pyval) : outcome unit :=
  match v with
  | PNone | PBool _ | PStr _ => Ok tt
  | PInt z => if is_int64 z then Ok tt else Raise OverflowError
  | PList _ | PDict _ => Raise ProgrammingError
  | PDatetime _ => OutOfModel
  end.

Fixpoint bind_all (params : list pyval) : outcome unit :=
  match params with
  | [] => Ok tt
  | v :: params' =>
      match driver_bind v with
      | Ok _ => bind_all params'
      | r => r
      end
  end.

Definition py_is_none (v : pyval) : bool :=
  match v with PNone => true | _ => false end.

(** What a column keeps of a bound value that is not NULL. A value of
    another Python type than the column's is outside the model: SQLite
    would coerce it, and the row would not be one of [Patient]. *)
Definition store_string (v : pyval) : outcome string :=
  match v with
  | PStr s => Ok s
  | _ => OutOfModel
  end.

Definition store_integer (v : pyval) : outcome Z :=
  match v with
  | PInt z => if is_int64 z then Ok z else OutOfModel
  | _ => OutOfModel
  end.

Definition store_datetime (v : pyval) : outcome datetime :=
  match v with
  | PDatetime t => Ok t
  | _ => OutOfModel
  end.

(** The rowid SQLite gives a row inserted without a primary key: 1 in an
    empty table, else the largest key plus one. *)
Definition next_rowid (t : gmap Z Patient) : outcome Z :=
  match (map_to_list t).*1 with
  | [] => Ok 1
  | k :: ks =>
      let m := foldr Z.max k ks in
      if is_int64 (m + 1) then Ok (m + 1) else OutOfModel
  end.

(** What the flush emits for one instance: INSERT for a pending one (the
    primary key chosen by SQLite when the attribute is [None], the column
    default [datetime.now] used when [last_update] is [None]), UPDATE for a
    persistent one (written as an UPDATE of every column: one that changes
    nothing rewrites the row with the same values), DELETE for one marked
    deleted. The parameters are prepared and bound before the statement
    runs; the statement fails the NOT NULL constraint of a [nullable=False]
    column that gets NULL, and the INSERT the uniqueness of the primary key.
    After INSERT and UPDATE the instance shows the stored row. *)
Definition flush_obj (a : nat) (o : PatientObj) : M unit :=
  match o_state o with
  | Pending =>
      w <- get_world ;;
      let lu := match o_last_update o with
                | PNone => PDatetime (clock w)
                | v => v
                end in
      lift (process_datetime lu) ;;
      lift (bind_all [o_id o; o_name o; o_age o; o_diagnosis_TEXT o]) ;;
      if py_is_none (o_name o) || py_is_none (o_age o) || py_is_none (o_diagnosis_TEXT o)
      then raise IntegrityError
      else
        n <- lift (store_string (o_name o)) ;;
        ag <- lift (store_integer (o_age o)) ;;
        g <- lift (store_string (o_diagnosis_TEXT o)) ;;
        t <- lift (store_datetime lu) ;;
        z <- match o_id o with
             | PNone => lift (next_rowid (txn w))
             | v => lift (store_integer v)
             end ;;
        match txn w !! z with
        | Some _ => raise IntegrityError
        | None =>
            let r := mk_Patient n ag g t in
            set_txn (<[z := r]> (txn w)) ;;
            set_heap (<[a := obj_of_row z r]> (heap w))
        end
  | Persistent =>
      w <- get_world ;;
      lift (process_datetime (o_last_update o)) ;;
      lift (bind_all [o_name o; o_age o; o_diagnosis_TEXT o; o_id o]) ;;
      if py_is_none (o_name o) || py_is_none (o_age o) || py_is_none (o_diagnosis_TEXT o)
         || py_is_none (o_last_update o)
      then raise IntegrityError
      else
        n <- lift (store_string (o_name o)) ;;
        ag <- lift (store_integer (o_age o)) ;;
        g <- lift (store_string (o_diagnosis_TEXT o)) ;;
        t <- lift (store_datetime (o_last_update o)) ;;
        z <- lift (store_integer (o_id o)) ;;
        let r := mk_Patient n ag g t in
        set_txn (<[z := r]> (txn w)) ;;
        set_heap (<[a := obj_of_row z r]> (heap w))
  | MarkedDeleted =>
      w <- get_world ;;
      z <- lift (store_integer (o_id o)) ;;
      set_txn (delete z (txn w)) ;;
      set_heap (<[a := obj_set_state o Detached]> (heap w))
  | Transient | Detached => ret tt
  end.

Fixpoint flush_from (n a : nat) : M unit :=
  match n with
  | O => ret tt
  | S n' => o <- deref a ;; flush_obj a o ;; flush_from n' (S a)
  end.

(** [session.flush()]: the instances are visited in the order they entered
    the heap; no handler below has more than one to flush. *)
Definition flush : M unit :=
  w <- get_world ;; flush_from (length (heap w)) 0.

(** [db.session.commit()] *)
Definition session_commit : M unit :=
  log OpCommit ;;
  flush ;;
  w <- get_world ;;
  set_db (txn w).

Definition rollback_obj (committed : gmap Z Patient) (o : PatientObj) : PatientObj :=
  match o_state o with
  | Pending => obj_set_state o Transient
  | Persistent | MarkedDeleted =>
      match o_id o with
      | PInt z =>
          match committed !! z with
          | Some r => obj_of_row z r
          | None => obj_set_state o Detached
          end
      | _ => obj_set_state o Detached
      end
  | Transient | Detached => o
  end.

(** [db.session.rollback()] *)
Definition session_rollback : M unit :=
  log OpRollback ;;
  w <- get_world ;;
  set_txn (db w) ;;
  set_heap (rollback_obj (db w) <$> heap w).

(** [db.session.add(p)] *)
Definition session_add (a : nat) : M unit :=
  log OpAdd ;;
  o <- deref a ;;
  w <- get_world ;;
  match o_state o with
  | Transient => set_heap (<[a := obj_set_state o Pending]> (heap w))
  | Detached => out_of_model
  | _ => ret tt
  end.

(** [db.session.delete(p)] *)
Definition session_delete (a : nat) : M unit :=
  log OpDelete ;;
  o <- deref a ;;
  w <- get_world ;;
  match o_state o with
  | Persistent | MarkedDeleted => set_heap (<[a := obj_set_state o MarkedDeleted]> (heap w))
  | Transient | Pending => raise InvalidRequestError
  | Detached => out_of_model
  end.

(** The session's identity map: the tracked instance with primary key [z]. *)
Fixpoint identity_lookup (z : Z) (h : list PatientObj) (a : nat) : option nat :=
  match h with
  | [] => None
  | o :: h' =>
      match o_state o, o_id o with
      | (Persistent | MarkedDeleted), PInt z' =>
          if z' =? z then Some a else identity_lookup z h' (S a)
      | _, _ => identity_lookup z h' (S a)
      end
  end.

(** [Patient.query.get(key)]: the identity map first, else a SELECT (after
    the autoflush) whose row, if any, is loaded as a new instance. A key that
    is not a 64-bit integer is outside the model. *)
Definition query_get (key : pyval) : M (option nat) :=
  log (OpQueryGet key) ;;
  match key with
  | PInt z =>
      if is_int64 z then
        w <- get_world ;;
        match identity_lookup z (heap w) 0 with
        | Some a => ret (Some a)
        | None =>
            flush ;;
            w <- get_world ;;
            match txn w !! z with
            | Some r =>
                set_heap (heap w ++ [obj_of_row z r]) ;;
                ret (Some (length (heap w)))
            | None => ret None
            end
        end
      else out_of_model
  | _ => out_of_model
  end.

Definition bulk_deleted (o : PatientObj) : PatientObj :=
  match o_state o with
  | Persistent | MarkedDeleted => obj_set_state o Detached
  | _ => o
  end.

(** [Patient.query.delete()]: DELETE of every row, after the autoflush;
    returns the number of rows deleted. *)
Definition query_delete : M Z :=
  log OpQueryDelete ;;
  flush ;;
  w <- get_world ;;
  set_txn ∅ ;;
  set_heap (bulk_deleted <$> heap w) ;;
  ret (Z.of_nat (size (txn w))).

(** [session.remove()], which Flask-SQLAlchemy runs when an app context is
    torn down: the open transaction is rolled back and the session dropped. *)
Definition session_remove : M unit :=
  log OpRemove ;;
  w <- get_world ;;
  set_txn (db w) ;;
  set_heap [].

(** [with app.app_context(): m] (and the context Flask pushes around a
    request handler): the block gets a session of its own, and the teardown
    runs however the block ends. *)
Definition new_session (w : world) : world :=
  mk_world (db w) (db w) [] (clock w) (exchange w) (broker_up w) (trace w).

Definition with_app_context {A} (m : M A) : M A :=
  fun w =>
    match m (new_session w) with
    | (r, w1) => (r, snd (session_remove w1))
    end.

(** ** Python operations the program uses *)

(** [v[k]] for a string [k]. *)
Definition subscript (v : pyval) (k : string) : M pyval :=
  match v with
  | PDict d =>
      match dict_get d k with
      | Some x => ret x
      | None => raise (KeyError k)
      end
  | _ => raise TypeError
  end.

(** [v == s] for a string [s]. *)
Definition py_eq_str (v : pyval) (s : string) : bool :=
  match v with
  | PStr s' => String.eqb s' s
  | _ => false
  end.

(** [k in v] for a string [k]: a key of a dict, an element of a list, a
    substring of a string; the other values are not iterable. *)
Definition py_in (k : string) (v : pyval) : outcome bool :=
  match v with
  | PDict d => Ok (bool_decide (is_Some (dict_get d k)))
  | PList l => Ok (existsb (fun x => py_eq_str x k) l)
  | PStr s => Ok (bool_decide (is_Some (index 0 k s)))
  | _ => Raise TypeError
  end.

(** [all(k in v for k in ks)], which stops at the first [False]. *)
Fixpoint py_all_in (ks : list string) (v : pyval) : outcome bool :=
  match ks with
  | [] => Ok true
  | k :: ks' =>
      match py_in k v with
      | Ok true => py_all_in ks' v
      | r => r
      end
  end.

(** [int] refuses a text of more than [sys.int_info.default_max_str_digits]
    digits, leading zeros counted. *)
Definition too_many_digits (cs : list ascii) : bool :=
  4300 <? Z.of_nat (length cs).

(** [int(v)]. A text of decimal digits is read, unless it has too many of
    them: [ValueError]. The text forms [int] accepts beyond plain decimal
    digits (sign, blanks, underscores) are outside the model, as are the
    other texts it rejects. *)
Definition py_int (v : pyval) : outcome Z :=
  match v with
  | PInt z => Ok z
  | PBool b => Ok (Z.b2z b)
  | PStr s =>
      let cs := list_ascii_of_string s in
      match cs, read_digits (length cs) 0 cs with
      | _ :: _, Some (z, _) => if too_many_digits cs then Raise ValueError else Ok z
      | _, _ => OutOfModel
      end
  | _ => Raise TypeError
  end.

(** [v.isoformat()] *)
Definition py_isoformat (v : pyval) : outcome pyval :=
  match v with
  | PDatetime t => Ok (PStr (isoformat t))
  | _ => Raise AttributeError
  end.

(** [datetime.fromisoformat(v)] *)
Definition py_fromisoformat (v : pyval) : outcome pyval :=
  match v with
  | PStr s =>
      match fromisoformat s with
      | Some t => Ok (PDatetime t)
      | None => OutOfModel
      end
  | _ => Raise TypeError
  end.

(** [f"{v}"] for a string; the text of other values is outside the model. *)
Definition py_str (v : pyval) : outcome string :=
  match v with
  | PStr s => Ok s
  | _ => OutOfModel
  end.

(** Whether [json.dumps] can write the value: a [datetime] is not JSON
    serializable. *)
Fixpoint json_serializable (v : pyval) : bool :=
  match v with
  | PDatetime _ => false
  | PList l => forallb json_serializable l
  | PDict d => forallb (fun kv => json_serializable (snd kv)) d
  | _ => true
  end.

(** ** The program *)

(** What [json.loads(body)] makes of a delivered body: the decoded value, or
    [JSONDecodeError] for a body that is not JSON text. *)
Inductive body : Type :=
| Undecodable
| Encodes (v : pyval).

Definition json_loads (b : body) : M pyval :=
  match b with
  | Undecodable => raise JSONDecodeError
  | Encodes v => ret v
  end.

(** [flask.request] as the handlers read it; [json] is [None] when the body
    does not parse, which makes [request.json] raise [BadRequest]. *)
Record request : Type := mk_request {
  is_json : bool;
  json : option pyval
}.

Definition request_json (req : request) : M pyval :=
  match json req with
  | Some v => ret v
  | None => raise BadRequest
  end.

(** A handler's answer: text and HTTP status. *)
Definition response : Type := string * Z.

(** [send_to_broker(event_data)]: a connection to the broker is opened,
    which raises [AMQPConnectionError] when the broker does not accept it;
    then [json.dumps] of the event is published to the fanout exchange
    [patients_exchange]. No caller wraps the call in a [try]. *)
Definition send_to_broker (event_data : pyval) : M unit :=
  w <- get_world ;;
  if broker_up w then
    if json_serializable event_data then set_exchange (exchange w ++ [event_data])
    else raise TypeError
  else raise AMQPConnectionError.

Definition fields : list string := ["name"; "age"; "diagnosis_TEXT"].

Definition catches_value_type (e : exn) : bool :=
  match e with ValueError | TypeError => true | _ => false end.

Definition catches_integrity (e : exn) : bool :=
  match e with IntegrityError => true | _ => false end.

Section Node.

(** [os.environ] of the process. *)
Variable environ : gmap string string.

(** [HOSPITAL_ID = os.getenv("HOSPITAL_ID", "hospital_a")] *)
Definition HOSPITAL_ID : string := default "hospital_a" (environ !! "HOSPITAL_ID").

(** The dict the three record handlers build from an instance [p]. *)
Definition record_event (action : string) (p : nat) : M pyval :=
  i <- getattr p a_id ;;
  n <- getattr p a_name ;;
  a <- getattr p a_age ;;
  g <- getattr p a_diagnosis_TEXT ;;
  t <- getattr p a_last_update ;;
  ts <- lift (py_isoformat t) ;;
  ret (PDict [("action", PStr action); ("id", i); ("name", n); ("age", a);
              ("diagnosis_TEXT", g); ("last_update", ts);
              ("origin", PStr HOSPITAL_ID)]).

(** [PatientCollection.post] *)
Definition PatientCollection_post (req : request) : M response :=
  with_app_context (
    if negb (is_json req) then ret ("Request content type must be JSON", 415)
    else
      incoming_JSON <- request_json req ;;
      complete <- lift (py_all_in fields incoming_JSON) ;;
      if negb complete then ret ("Incomplete request - missing fields", 400)
      else
        parsed <- try_except
                    (n <- subscript incoming_JSON "name" ;;
                     a <- subscript incoming_JSON "age" ;;
                     a <- lift (py_int a) ;;
                     g <- subscript incoming_JSON "diagnosis_TEXT" ;;
                     ret (Some (n, a, g)))
                    catches_value_type (ret None) ;;
        match parsed with
        | None => ret ("Invalid data types for fields", 400)
        | Some (n, a, g) =>
            new_patient <- new_Patient PNone n (PInt a) g PNone ;;
            session_add new_patient ;;
            committed <- try_except (session_commit ;; ret true)
                           catches_integrity (session_rollback ;; ret false) ;;
            if negb committed
            then ret ("Database integrity error - possible duplicate entry", 400)
            else
              event <- record_event "add_or_update" new_patient ;;
              send_to_broker event ;;
              who <- lift (py_str n) ;;
              ret ("Patient " ++ who ++ " created successfully", 201)
        end).

(** [PatientCollection.delete] *)
Definition PatientCollection_delete : M response :=
  with_app_context (
    num_deleted <- query_delete ;;
    session_commit ;;
    send_to_broker
      (PDict [("action", PStr "delete_all"); ("id", PNone); ("name", PNone);
              ("age", PNone); ("diagnosis_TEXT", PNone); ("last_update", PNone);
              ("origin", PStr HOSPITAL_ID)]) ;;
    ret ("Deleted " ++ pretty num_deleted ++ " patients", 200)).

(** [PatientItem.put]; [id] comes from the URL converter [<int:id>]. *)
Definition PatientItem_put (id : Z) (req : request) : M response :=
  with_app_context (
    found <- query_get (PInt id) ;;
    match found with
    | None => ret ("Patient not found", 404)
    | Some patient =>
        if negb (is_json req) then ret ("Request content type must be JSON", 415)
        else
          incoming_JSON <- request_json req ;;
          complete <- lift (py_all_in fields incoming_JSON) ;;
          if negb complete then ret ("Incomplete request - missing fields", 400)
          else
            assigned <- try_except
                          (n <- subscript incoming_JSON "name" ;;
                           setattr patient a_name n ;;
                           a <- subscript incoming_JSON "age" ;;
                           a <- lift (py_int a) ;;
                           setattr patient a_age (PInt a) ;;
                           g <- subscript incoming_JSON "diagnosis_TEXT" ;;
                           setattr patient a_diagnosis_TEXT g ;;
                           w <- get_world ;;
                           setattr patient a_last_update (PDatetime (clock w)) ;;
                           ret true)
                          catches_value_type (ret false) ;;
            if negb assigned then ret ("Invalid data types for fields", 400)
            else
              committed <- try_except (session_commit ;; ret true)
                             catches_integrity (session_rollback ;; ret false) ;;
              if negb committed
              then ret ("Database integrity error - possible duplicate entry", 400)
              else
                event <- record_event "add_or_update" patient ;;
                send_to_broker event ;;
                n <- getattr patient a_name ;;
                who <- lift (py_str n) ;;
                ret ("Patient " ++ who ++ " updated successfully", 200)
    end).

(** [PatientItem.delete] *)
Definition PatientItem_delete (id : Z) : M response :=
  with_app_context (
    found <- query_get (PInt id) ;;
    match found with
    | None => ret ("Patient not found", 404)
    | Some patient =>
        session_delete patient ;;
        session_commit ;;
        event <- record_event "delete" patient ;;
        send_to_broker event ;;
        n <- getattr patient a_name ;;
        who <- lift (py_str n) ;;
        ret ("Patient " ++ who ++ " deleted successfully", 200)
    end).

(** The block under [with app.app_context():] in [callback]. *)
Definition callback_apply (data : pyval) : M unit :=
  action <- subscript data "action" ;;
  if py_eq_str action "add_or_update" then
    key <- subscript data "id" ;;
    found <- query_get key ;;
    match found with
    | Some patient =>
        v <- subscript data "name" ;;
        setattr patient a_name v ;;
        v <- subscript data "age" ;;
        setattr patient a_age v ;;
        v <- subscript data "diagnosis_TEXT" ;;
        setattr patient a_diagnosis_TEXT v ;;
        v <- subscript data "last_update" ;;
        t <- lift (py_fromisoformat v) ;;
        setattr patient a_last_update t
    | None =>
        i <- subscript data "id" ;;
        n <- subscript data "name" ;;
        a <- subscript data "age" ;;
        g <- subscript data "diagnosis_TEXT" ;;
        v <- subscript data "last_update" ;;
        t <- lift (py_fromisoformat v) ;;
        patient <- new_Patient i n a g t ;;
        session_add patient ;;
        session_commit
    end
  else
    action <- subscript data "action" ;;
    if py_eq_str action "delete" then
      key <- subscript data "id" ;;
      found <- query_get key ;;
      match found with
      | Some patient => session_delete patient ;; session_commit
      | None => ret tt
      end
    else
      action <- subscript data "action" ;;
      if py_eq_str action "delete_all" then
        query_delete ;; session_commit
      else ret tt.

(** [callback(ch, method, properties, body)] of [start_consumer] *)
Definition callback (b : body) : M unit :=
  data <- json_loads b ;;
  origin <- subscript data "origin" ;;
  if py_eq_str origin HOSPITAL_ID then ret tt
  else with_app_context (callback_apply data).

(** A delivery from the queue consumed with [auto_ack]: under [auto_ack=True]
    the broker counts the message as acknowledged when it hands it over, and
    the callback, which never calls [basic_ack], runs afterwards. *)
Definition on_message (auto_ack : bool) (b : body) : M unit :=
  (if auto_ack then log OpAck else ret tt) ;;
  callback b.

(** [channel.start_consuming()] over the messages the queue delivers, in
    order; an exception of the callback ends the loop. *)
Fixpoint start_consuming (auto_ack : bool) (queue : list body) : M unit :=
  match queue with
  | [] => ret tt
  | b :: queue' => on_message auto_ack b ;; start_consuming auto_ack queue'
  end.

(** [start_consumer()]: [basic_consume(..., auto_ack=True)], then the loop.
    [queue] holds the messages the broker delivers over the connection the
    consumer opened. *)
Definition start_consumer (queue : list body) : M unit :=
  start_consuming true queue.

End Node.

(** ** Vocabulary of the statements *)

(** The dict is an [add_or_update] event for the 64-bit key [z] carrying the
    values [vn], [va], [vg] and the timestamp text [s], which reads as [t]. *)
Record upsert_event (d : dict) (z : Z) (vn va vg : pyval) (s : string) (t : datetime) : Prop := {
  up_action : dict_get d "action" = Some (PStr "add_or_update");
  up_id : dict_get d "id" = Some (PInt z);
  up_id64 : is_int64 z = true;
  up_name : dict_get d "name" = Some vn;
  up_age : dict_get d "age" = Some va;
  up_diagnosis : dict_get d "diagnosis_TEXT" = Some vg;
  up_last_update : dict_get d "last_update" = Some (PStr s);
  up_time : fromisoformat s = Some t
}.

Record delete_event (d : dict) (z : Z) : Prop := {
  del_action : dict_get d "action" = Some (PStr "delete");
  del_id : dict_get d "id" = Some (PInt z);
  del_id64 : is_int64 z = true
}.

Definition delete_all_event (d : dict) : Prop :=
  dict_get d "action" = Some (PStr "delete_all").

(** A valid event: one of the three actions with the fields the action needs,
    of the types of the columns they go to, and an origin. *)
Inductive valid_event (d : dict) : Prop :=
| valid_upsert z n a g s t :
    is_Some (dict_get d "origin") ->
    upsert_event d z (PStr n) (PInt a) (PStr g) s t -> is_int64 a = true ->
    valid_event d
| valid_delete z :
    is_Some (dict_get d "origin") -> delete_event d z -> valid_event d
| valid_delete_all :
    is_Some (dict_get d "origin") -> delete_all_event d -> valid_event d.

(** A call of the REST API. *)
Inductive api_call : Type :=
| POST_patients (req : request)
| DELETE_patients
| PUT_patient (id : Z) (req : request)
| DELETE_patient (id : Z).

Definition handle (environ : gmap string string) (c : api_call) : M response :=
  match c with
  | POST_patients req => PatientCollection_post environ req
  | DELETE_patients => PatientCollection_delete environ
  | PUT_patient i req => PatientItem_put environ i req
  | DELETE_patient i => PatientItem_delete environ i
  end.

Definition is_null (o : option pyval) : Prop := o = Some PNone.
Definition is_int (o : option pyval) : Prop := exists z, o = Some (PInt z).
Definition is_text (o : option pyval) : Prop := exists s, o = Some (PStr s).

(** The fields a published event carries, by action. *)
Definition record_fields_set (e : dict) : Prop :=
  is_int (dict_get e "id") /\ is_text (dict_get e "name") /\
  is_int (dict_get e "age") /\ is_text (dict_get e "diagnosis_TEXT").

Definition record_fields_null (e : dict) : Prop :=
  is_null (dict_get e "id") /\ is_null (dict_get e "name") /\
  is_null (dict_get e "age") /\ is_null (dict_get e "diagnosis_TEXT").

Definition published_shape (v : pyval) : Prop :=
  match v with
  | PDict e =>
      (dict_get e "action" = Some (PStr "add_or_update") /\ record_fields_set e) \/
      (dict_get e "action" = Some (PStr "delete") /\ record_fields_set e) \/
      (dict_get e "action" = Some (PStr "delete_all") /\ record_fields_null e)
  | _ => False
  end.

Definition origin_is (o : string) (v : pyval) : Prop :=
  match v with
  | PDict e => dict_get e "origin" = Some (PStr o)
  | _ => False
  end.

(** A published event has the fields of its action and the origin [o]. *)
Definition well_published (o : string) (v : pyval) : Prop :=
  published_shape v /\ origin_is o v.

(** The world a callback leaves when its block ended in [w1]. *)
Definition torn_down (w1 : world) : world :=
  mk_world (db w1) (db w1) [] (clock w1) (exchange w1) (broker_up w1)
    (trace w1 ++ [OpRemove]).

(** [m] only adds to the trace, and adds no acknowledgement. *)
Definition ack_free {A} (m : M A) : Prop :=
  forall w, exists ops,
    trace (snd (m w)) = (trace w ++ ops)%list /\ Forall (fun o => o <> OpAck) ops.

(** ** Data of the examples *)

Definition noon : datetime := mk_datetime 2026 3 9 12 0 0 0.
Definition t1 : datetime := mk_datetime 2026 3 1 8 0 0 0.
Definition t2 : datetime := mk_datetime 2026 3 2 8 0 0 0.

(** A world between two requests: no open session, nothing published, the
    broker reachable. *)
Definition idle (d : gmap Z Patient) : world := mk_world d d [] noon [] true [].

(** The event another hospital publishes for a row, as [record_event] builds
    it there. *)
Definition event_of (action : string) (z : Z) (n : string) (a : Z) (g ts o : string) : dict :=
  [("action", PStr action); ("id", PInt z); ("name", PStr n); ("age", PInt a);
   ("diagnosis_TEXT", PStr g); ("last_update", PStr ts); ("origin", PStr o)].

Definition jane_t1 : dict :=
  event_of "add_or_update" 1 "Jane" 40 "flu" "2026-03-01T08:00:00" "hospital_b".
Definition jane_t2 : dict :=
  event_of "add_or_update" 1 "Jane" 41 "pneumonia" "2026-03-02T08:00:00" "hospital_b".
Definition jane_deleted : dict :=
  event_of "delete" 1 "Jane" 40 "flu" "2026-03-01T08:00:00" "hospital_b".
Definition all_deleted : dict :=
  [("action", PStr "delete_all"); ("id", PNone); ("name", PNone); ("age", PNone);
   ("diagnosis_TEXT", PNone); ("last_update", PNone); ("origin", PStr "hospital_b")].
Definition own_event : dict :=
  event_of "add_or_update" 1 "Jane" 40 "flu" "2026-03-01T08:00:00" "hospital_a".

Definition jane_row_t1 : Patient := mk_Patient "Jane" 40 "flu" t1.
Definition jane_row_t2 : Patient := mk_Patient "Jane" 41 "pneumonia" t2.

(** The published value is a dict that the consumers take as a valid event. *)
Definition decodes_valid (v : pyval) : Prop :=
  exists d, v = PDict d /\ valid_event d.

(** A second node, and a request to create a record. *)
Definition hospital_b_env : gmap string string := {["HOSPITAL_ID" := "hospital_b"]}.

Definition jane_request : request :=
  mk_request true
    (Some (PDict [("name", PStr "Jane"); ("age", PInt 40); ("diagnosis_TEXT", PStr "flu")])).

(** ** The reading handlers *)

(** [t.strftime("%Y-%m-%d %H:%M:%S")]. Below year 1000 the C library's [%Y]
    pads differently from platform to platform: [None], and the callers
    leave the model there. *)
Definition strftime (t : datetime) : option string :=
  if 1000 <=? year t then
    Some (string_of_list_ascii
            (show_digits 4 (year t) ++ ["-"%char] ++ show_digits 2 (month t) ++ ["-"%char] ++
             show_digits 2 (day t) ++ [" "%char] ++
             show_digits 2 (hour t) ++ [":"%char] ++ show_digits 2 (minute t) ++ [":"%char] ++
             show_digits 2 (second t)))
  else None.

(** [v.strftime("%Y-%m-%d %H:%M:%S")] *)
Definition py_strftime (v : pyval) : outcome pyval :=
  match v with
  | PDatetime t =>
      match strftime t with
      | Some s => Ok (PStr s)
      | None => OutOfModel
      end
  | _ => Raise AttributeError
  end.

(** The rows of a table in the order SQLite scans it: by ascending [id]. *)
Definition id_le (a b : Z * Patient) : Prop := a.1 <= b.1.

#[global] Instance id_le_dec : RelDecision id_le.
Proof. intros a b. unfold id_le. apply _. Defined.

Definition rows_by_id (t : gmap Z Patient) : list (Z * Patient) :=
  merge_sort id_le (map_to_list t).

(** The instance for one row of a result: the one the identity map holds for
    the key, else a new instance loaded from the row. *)
Definition load_row (zr : Z * Patient) : M nat :=
  w <- get_world ;;
  match identity_lookup zr.1 (heap w) 0 with
  | Some a => ret a
  | None =>
      set_heap (heap w ++ [obj_of_row zr.1 zr.2]) ;;
      ret (length (heap w))
  end.

Fixpoint load_rows (rows : list (Z * Patient)) : M (list nat) :=
  match rows with
  | [] => ret []
  | zr :: rows' =>
      a <- load_row zr ;;
      l <- load_rows rows' ;;
      ret (a :: l)
  end.

(** [Patient.query.all()]: a SELECT of every row, after the autoflush. *)
Definition query_all : M (list nat) :=
  flush ;;
  w <- get_world ;;
  load_rows (rows_by_id (txn w)).

(** The dict both reading handlers build from an instance. *)
Definition patient_data_of (p : nat) : M pyval :=
  n <- getattr p a_name ;;
  a <- getattr p a_age ;;
  g <- getattr p a_diagnosis_TEXT ;;
  t <- getattr p a_last_update ;;
  ts <- lift (py_strftime t) ;;
  ret (PDict [("name", n); ("age", a); ("diagnosis_TEXT", g); ("last_update", ts)]).

(** The [for pat in patients] loop of [PatientCollection.get]. *)
Fixpoint collect_patients (patients : list nat) (patient_list : list pyval) : M (list pyval) :=
  match patients with
  | [] => ret patient_list
  | pat :: patients' =>
      patient_data <- patient_data_of pat ;;
      collect_patients patients' (patient_list ++ [patient_data])
  end.

(** [PatientCollection.get]: the list it returns. *)
Definition PatientCollection_get : M pyval :=
  with_app_context (
    patients <- query_all ;;
    patient_list <- collect_patients patients [] ;;
    ret (PList patient_list)).

(** [PatientItem.get]: the 404 answer, or the dict it returns. *)
Definition PatientItem_get (id : Z) : M (response + pyval) :=
  with_app_context (
    found <- query_get (PInt id) ;;
    match found with
    | None => ret (inl ("Patient not found", 404))
    | Some patient =>
        patient_data <- patient_data_of patient ;;
        ret (inr patient_data)
    end).

(** What the reading handlers show of a row. *)
Definition shown (r : Patient) (ts : string) : pyval :=
  PDict [("name", PStr (name r)); ("age", PInt (age r));
         ("diagnosis_TEXT", PStr (diagnosis_TEXT r)); ("last_update", PStr ts)].

(** ** Vocabulary of the further statements *)

(** Every run of [m] takes a world to one related to it by [R]. *)
Definition stable (R : world -> world -> Prop) {A} (m : M A) : Prop :=
  forall w, R w (snd (m w)).

(** Nothing was published and the clock was not touched. *)
Definition same_exchange (w w' : world) : Prop :=
  exchange w' = exchange w /\ clock w' = clock w.

(** Nothing was committed and nothing was published. *)
Definition same_store (w w' : world) : Prop :=
  db w' = db w /\ exchange w' = exchange w /\ clock w' = clock w.

Definition is_ack (o : op) : bool :=
  match o with OpAck => true | _ => false end.

(** The acknowledgements in a stretch of the trace. *)
Definition acks (ops : list op) : nat := length (List.filter is_ack ops).

(** The body decodes to a valid event. *)
Definition valid_body (b : body) : Prop :=
  exists d, b = Encodes (PDict d) /\ valid_event d.

(** What applying an event does to the committed table. *)
Inductive effect : Type :=
| Nop
| CreateIfAbsent (z : Z) (r : Patient)
| Remove (z : Z)
| Clear.

Definition run_effect (eff : effect) (m : gmap Z Patient) : gmap Z Patient :=
  match eff with
  | Nop => m
  | CreateIfAbsent z r =>
      match m !! z with
      | Some _ => m
      | None => <[z := r]> m
      end
  | Remove z => delete z m
  | Clear => ∅
  end.

Definition run_effects (effs : list effect) (m : gmap Z Patient) : gmap Z Patient :=
  foldl (fun m eff => run_effect eff m) m effs.

(** The effect of a valid event at the node of environment [environ]. *)
Inductive has_effect (environ : gmap string string) (d : dict) : effect -> Prop :=
| effect_own v :
    dict_get d "origin" = Some v -> py_eq_str v (HOSPITAL_ID environ) = true ->
    has_effect environ d Nop
| effect_upsert v z n a g s t :
    dict_get d "origin" = Some v -> py_eq_str v (HOSPITAL_ID environ) = false ->
    upsert_event d z (PStr n) (PInt a) (PStr g) s t -> is_int64 a = true ->
    has_effect environ d (CreateIfAbsent z (mk_Patient n a g t))
| effect_delete v z :
    dict_get d "origin" = Some v -> py_eq_str v (HOSPITAL_ID environ) = false ->
    delete_event d z ->
    has_effect environ d (Remove z)
| effect_delete_all v :
    dict_get d "origin" = Some v -> py_eq_str v (HOSPITAL_ID environ) = false ->
    delete_all_event d ->
    has_effect environ d Clear.

(** What an effect does to the entry of one key. *)
Definition step_entry (eff : effect) (k : Z) (o : option Patient) : option Patient :=
  match eff with
  | Nop => o
  | CreateIfAbsent z r =>
      if decide (z = k) then match o with Some _ => o | None => Some r end else o
  | Remove z => if decide (z = k) then None else o
  | Clear => None
  end.

(** The answer has status 200 or 201. *)
Definition succeeded (answer : response) : bool :=
  (answer.2 =? 200) || (answer.2 =? 201).

(** JSON bodies that are not objects: null, booleans, numbers; texts, arrays. *)
Definition scalar_body (v : pyval) : bool :=
  match v with
  | PNone | PBool _ | PInt _ => true
  | _ => false
  end.

Definition text_or_array_body (v : pyval) : bool :=
  match v with
  | PStr _ | PList _ => true
  | _ => false
  end.

(** The instances a result loads into an empty session, one for each row. *)
Definition objs (rows : list (Z * Patient)) : list PatientObj :=
  (fun zr => obj_of_row zr.1 zr.2) <$> rows.

(** The item the listing shows for a row, when its timestamp can be shown. *)
Definition show_row (zr : Z * Patient) : option pyval :=
  match strftime (last_update zr.2) with
  | Some ts => Some (shown zr.2 ts)
  | None => None
  end.

(** The keys of a dict. *)
Definition dict_keys (v : pyval) : list string :=
  match v with
  | PDict d => d.*1
  | _ => []
  end.

(** The effect reads or writes the entry of key [k]. *)
Definition touches (eff : effect) (k : Z) : Prop :=
  match eff with
  | Nop => False
  | CreateIfAbsent z _ | Remove z => z = k
  | Clear => True
  end.

(** No key is touched by both effects. *)
Definition independent (e1 e2 : effect) : Prop :=
  forall k, ~ (touches e1 k /\ touches e2 k).

(** * Proofs *)

(** ** Running the model *)

(** Unfolds the monad, the session operations and the record projections,
    and computes on the heap, leaving the table operations as they are. *)
Ltac exec :=
  cbv beta iota zeta delta
    [bind ret raise lift out_of_model log get_world set_txn set_db set_heap set_exchange
     subscript py_eq_str query_get setattr getattr deref new_Patient session_add
     session_commit session_delete session_remove session_rollback query_delete
     flush flush_from flush_obj try_except
     py_fromisoformat py_isoformat process_datetime driver_bind bind_all py_is_none orb
     store_string store_integer store_datetime
     obj_of_row obj_set obj_get obj_set_state identity_lookup bulk_deleted rollback_obj
     db txn heap clock exchange broker_up trace
     o_state o_id o_name o_age o_diagnosis_TEXT o_last_update
     name age diagnosis_TEXT last_update fst snd
     String.eqb Ascii.eqb Bool.eqb];
  cbn [lookup list_lookup insert list_insert app length fmap list_fmap].

Lemma with_app_context_run {A} (m : M A) w r w1 :
  m (new_session w) = (r, w1) ->
  with_app_context m w =
  (r, mk_world (db w1) (db w1) [] (clock w1) (exchange w1) (broker_up w1)
        (trace w1 ++ [OpRemove])).
Proof. intros H. unfold with_app_context. now rewrite H. Qed.

(** ** The block of the callback, action by action, in a new session *)

Section Apply.

Variables (dbw : gmap Z Patient) (c : datetime) (x : list pyval) (bk : bool) (tr : list op).

(** [add_or_update] for an absent key: the row is inserted and committed. *)
Lemma apply_upsert_absent d z n a g s t :
  upsert_event d z (PStr n) (PInt a) (PStr g) s t -> is_int64 a = true ->
  dbw !! z = None ->
  callback_apply (PDict d) (mk_world dbw dbw [] c x bk tr) =
  (Ok tt, mk_world (<[z := mk_Patient n a g t]> dbw) (<[z := mk_Patient n a g t]> dbw)
            [obj_of_row z (mk_Patient n a g t)] c x
            bk (tr ++ [OpQueryGet (PInt z); OpAdd; OpCommit])).
Proof.
  intros [Ha Hi Hi64 Hn Hag Hg Hs Hp] Hag64 Hz.
  unfold callback_apply. exec.
  rewrite Ha. exec. rewrite Hi. exec. rewrite Hi64. exec. rewrite Hz. exec.
  rewrite Hn, Hag, Hg, Hs. exec. rewrite Hp. exec. rewrite Hi64, Hag64. exec.
  rewrite Hz. exec. now rewrite <- !app_assoc.
Qed.

(** [add_or_update] for a key that has a row: the instance loaded from the
    row takes the event's values, and nothing is flushed or committed. *)
Lemma apply_upsert_present d z vn va vg s t r :
  upsert_event d z vn va vg s t ->
  dbw !! z = Some r ->
  callback_apply (PDict d) (mk_world dbw dbw [] c x bk tr) =
  (Ok tt, mk_world dbw dbw
            [mk_PatientObj Persistent (PInt z) vn va vg (PDatetime t)] c x
            bk (tr ++ [OpQueryGet (PInt z)])).
Proof.
  intros [Ha Hi Hi64 Hn Hag Hg Hs Hp] Hz.
  unfold callback_apply. exec.
  rewrite Ha. exec. rewrite Hi. exec. rewrite Hi64. exec. rewrite Hz. exec.
  rewrite Hn. exec. rewrite Hag. exec. rewrite Hg. exec. rewrite Hs. exec.
  rewrite Hp. exec. reflexivity.
Qed.

(** [delete] for an absent key: nothing but the lookup happens. *)
Lemma apply_delete_absent d z :
  delete_event d z -> dbw !! z = None ->
  callback_apply (PDict d) (mk_world dbw dbw [] c x bk tr) =
  (Ok tt, mk_world dbw dbw [] c x bk (tr ++ [OpQueryGet (PInt z)])).
Proof.
  intros [Ha Hi Hi64] Hz.
  unfold callback_apply. exec.
  rewrite Ha. exec. rewrite Hi. exec. rewrite Hi64. exec. rewrite Hz. exec.
  reflexivity.
Qed.

(** [delete] for a key that has a row: the row is deleted and the deletion
    committed. *)
Lemma apply_delete_present d z r :
  delete_event d z -> dbw !! z = Some r ->
  callback_apply (PDict d) (mk_world dbw dbw [] c x bk tr) =
  (Ok tt, mk_world (delete z dbw) (delete z dbw)
            [obj_set_state (obj_of_row z r) Detached] c x
            bk (tr ++ [OpQueryGet (PInt z); OpDelete; OpCommit])).
Proof.
  intros [Ha Hi Hi64] Hz.
  unfold callback_apply. exec.
  rewrite Ha. exec. rewrite Hi. exec. rewrite Hi64. exec. rewrite Hz. exec.
  rewrite Hi64. exec. now rewrite <- !app_assoc.
Qed.

(** [delete_all]: every row goes, whatever the table held. *)
Lemma apply_delete_all d :
  delete_all_event d ->
  callback_apply (PDict d) (mk_world dbw dbw [] c x bk tr) =
  (Ok tt, mk_world ∅ ∅ [] c x bk (tr ++ [OpQueryDelete; OpCommit])).
Proof.
  intros Ha. unfold delete_all_event in Ha.
  unfold callback_apply. exec.
  rewrite Ha. exec. now rewrite <- !app_assoc.
Qed.

End Apply.

(** ** The ISO 8601 text of a timestamp *)

Example isoformat_ex :
  isoformat (mk_datetime 2026 3 9 14 5 0 0) = "2026-03-09T14:05:00".
Proof. reflexivity. Qed.

Example isoformat_us_ex :
  isoformat (mk_datetime 2026 3 9 14 5 0 1500) = "2026-03-09T14:05:00.001500".
Proof. reflexivity. Qed.

Example fromisoformat_ex :
  fromisoformat "2026-03-09T14:05:00.001500" = Some (mk_datetime 2026 3 9 14 5 0 1500).
Proof. vm_compute. reflexivity. Qed.

Example fromisoformat_feb30 : fromisoformat "2026-02-30T00:00:00" = None.
Proof. vm_compute. reflexivity. Qed.

Lemma digit_show (d : Z) :
  0 <= d < 10 -> digit (ascii_of_N (Z.to_N (48 + d))) = Some d.
Proof.
  intros H.
  assert (d = 0 \/ d = 1 \/ d = 2 \/ d = 3 \/ d = 4 \/ d = 5 \/ d = 6 \/ d = 7 \/ d = 8 \/ d = 9)
    as Hd by lia.
  repeat (destruct Hd as [-> | Hd]; [reflexivity|]). now subst.
Qed.

(** Reading [k] digits and then [j] more is reading [k + j] digits. *)
Lemma read_digits_more k j : forall acc cs v rest,
  read_digits k acc cs = Some (v, rest) ->
  read_digits (k + j) acc cs = read_digits j v rest.
Proof.
  induction k as [|k IH]; intros acc cs v rest H; cbn in H |- *.
  - now inversion H.
  - destruct cs as [|ch cs]; [discriminate|].
    destruct (digit ch) as [d|]; [|discriminate]. now apply IH.
Qed.

Lemma read_show_digits k : forall acc n rest,
  0 <= n < 10 ^ Z.of_nat k ->
  read_digits k acc (show_digits k n ++ rest) = Some (acc * 10 ^ Z.of_nat k + n, rest).
Proof.
  induction k as [|k IH]; intros acc n rest H.
  - cbn in *. f_equal. f_equal. lia.
  - assert (10 ^ Z.of_nat (S k) = 10 * 10 ^ Z.of_nat k) as Hpow.
    { rewrite Nat2Z.inj_succ. apply Z.pow_succ_r. lia. }
    rewrite Hpow in H |- *.
    assert (0 <= n / 10 < 10 ^ Z.of_nat k) as Hq.
    { split; [apply Z.div_pos; lia | apply Z.div_lt_upper_bound; lia]. }
    cbn [show_digits]. rewrite <- app_assoc. cbn [app].
    replace (S k) with (k + 1)%nat by lia.
    rewrite (read_digits_more k 1 acc _ _ _ (IH acc (n / 10) _ Hq)).
    cbn [read_digits]. rewrite digit_show by (apply Z.mod_pos_bound; lia).
    f_equal. f_equal. pose proof (Z.div_mod n 10). lia.
Qed.

Lemma read_char_same c cs : read_char c (c :: cs) = Some cs.
Proof. unfold read_char. now rewrite Ascii.eqb_refl. Qed.

(** What [isoformat] writes, [fromisoformat] reads back. *)
Lemma fromisoformat_isoformat (t : datetime) :
  datetime_ok t = true -> fromisoformat (isoformat t) = Some t.
Proof.
  intros Hok. pose proof Hok as Hok'.
  unfold datetime_ok in Hok'. rewrite !andb_true_iff in Hok'.
  destruct Hok' as [[[[[[[[[[[[[Hy1 Hy2] Hm1] Hm2] Hd1] Hd2] Hh1] Hh2] Hi1] Hi2] Hs1] Hs2] Hu1] Hu2].
  assert (days_in_month (year t) (month t) <= 31) as Hdim.
  { unfold days_in_month. repeat case_match; lia. }
  destruct t as [y mo d h mi se us]; cbn [year month day hour minute second microsecond] in *.
  unfold fromisoformat, isoformat.
  cbn [year month day hour minute second microsecond].
  rewrite list_ascii_of_string_of_list_ascii.
  repeat (cbn [app mbind option_bind];
          first [ rewrite read_char_same | rewrite read_show_digits by lia ]).
  cbn [app mbind option_bind]. rewrite !Z.mul_0_l, !Z.add_0_l.
  destruct (us =? 0) eqn:Hus.
  - apply Z.eqb_eq in Hus; subst us. cbn [mbind option_bind]. now rewrite Hok.
  - cbn [app mbind option_bind]. rewrite read_char_same. cbn [mbind option_bind].
    rewrite <- (app_nil_r (show_digits 6 us)).
    rewrite read_show_digits by lia. cbn [mbind option_bind].
    rewrite !Z.mul_0_l, !Z.add_0_l. now rewrite Hok.
Qed.

(** ** The callback *)

Section Callback.

Variable environ : gmap string string.

Lemma callback_own d v w :
  dict_get d "origin" = Some v ->
  py_eq_str v (HOSPITAL_ID environ) = true ->
  callback environ (Encodes (PDict d)) w = (Ok tt, w).
Proof.
  intros Ho Hv. unfold callback.
  cbv beta iota zeta delta [json_loads bind ret subscript].
  rewrite Ho. cbv beta iota. now rewrite Hv.
Qed.

Lemma callback_remote d v w :
  dict_get d "origin" = Some v ->
  py_eq_str v (HOSPITAL_ID environ) = false ->
  callback environ (Encodes (PDict d)) w =
  with_app_context (callback_apply (PDict d)) w.
Proof.
  intros Ho Hv. unfold callback.
  cbv beta iota zeta delta [json_loads bind ret subscript].
  rewrite Ho. cbv beta iota. now rewrite Hv.
Qed.

Lemma callback_remote_run d v w r w1 :
  dict_get d "origin" = Some v ->
  py_eq_str v (HOSPITAL_ID environ) = false ->
  callback_apply (PDict d) (new_session w) = (r, w1) ->
  callback environ (Encodes (PDict d)) w = (r, torn_down w1).
Proof.
  intros Ho Hv H. rewrite (callback_remote d v w Ho Hv).
  now apply with_app_context_run.
Qed.

Lemma callback_upsert_absent d v z n a g s t w :
  dict_get d "origin" = Some v ->
  py_eq_str v (HOSPITAL_ID environ) = false ->
  upsert_event d z (PStr n) (PInt a) (PStr g) s t -> is_int64 a = true ->
  db w !! z = None ->
  callback environ (Encodes (PDict d)) w =
  (Ok tt, mk_world (<[z := mk_Patient n a g t]> (db w)) (<[z := mk_Patient n a g t]> (db w))
            [] (clock w) (exchange w)
            (broker_up w) (trace w ++ [OpQueryGet (PInt z); OpAdd; OpCommit; OpRemove])).
Proof.
  intros Ho Hv Hu Ha Hz.
  erewrite callback_remote_run; eauto using apply_upsert_absent.
  unfold torn_down; cbn. now rewrite <- app_assoc.
Qed.

Lemma callback_upsert_present d v z vn va vg s t w r :
  dict_get d "origin" = Some v ->
  py_eq_str v (HOSPITAL_ID environ) = false ->
  upsert_event d z vn va vg s t ->
  db w !! z = Some r ->
  callback environ (Encodes (PDict d)) w =
  (Ok tt, mk_world (db w) (db w) [] (clock w) (exchange w)
            (broker_up w) (trace w ++ [OpQueryGet (PInt z); OpRemove])).
Proof.
  intros Ho Hv Hu Hz.
  erewrite callback_remote_run; eauto using apply_upsert_present.
  unfold torn_down; cbn. now rewrite <- app_assoc.
Qed.

Lemma callback_delete_absent d v z w :
  dict_get d "origin" = Some v ->
  py_eq_str v (HOSPITAL_ID environ) = false ->
  delete_event d z -> db w !! z = None ->
  callback environ (Encodes (PDict d)) w =
  (Ok tt, mk_world (db w) (db w) [] (clock w) (exchange w)
            (broker_up w) (trace w ++ [OpQueryGet (PInt z); OpRemove])).
Proof.
  intros Ho Hv Hd Hz.
  erewrite callback_remote_run; eauto using apply_delete_absent.
  unfold torn_down; cbn. now rewrite <- app_assoc.
Qed.

Lemma callback_delete_present d v z w r :
  dict_get d "origin" = Some v ->
  py_eq_str v (HOSPITAL_ID environ) = false ->
  delete_event d z -> db w !! z = Some r ->
  callback environ (Encodes (PDict d)) w =
  (Ok tt, mk_world (delete z (db w)) (delete z (db w)) [] (clock w) (exchange w)
            (broker_up w) (trace w ++ [OpQueryGet (PInt z); OpDelete; OpCommit; OpRemove])).
Proof.
  intros Ho Hv Hd Hz.
  erewrite callback_remote_run; eauto using apply_delete_present.
  unfold torn_down; cbn. now rewrite <- app_assoc.
Qed.

Lemma callback_delete_all d v w :
  dict_get d "origin" = Some v ->
  py_eq_str v (HOSPITAL_ID environ) = false ->
  delete_all_event d ->
  callback environ (Encodes (PDict d)) w =
  (Ok tt, mk_world ∅ ∅ [] (clock w) (exchange w)
            (broker_up w) (trace w ++ [OpQueryDelete; OpCommit; OpRemove])).
Proof.
  intros Ho Hv Hd.
  erewrite callback_remote_run; eauto using apply_delete_all.
  unfold torn_down; cbn. now rewrite <- app_assoc.
Qed.

(** A valid event is applied without an exception. *)
Lemma callback_valid_returns d w :
  valid_event d -> fst (callback environ (Encodes (PDict d)) w) = Ok tt.
Proof.
  intros Hv.
  assert (exists v, dict_get d "origin" = Some v) as [v Ho].
  { destruct Hv as [? ? ? ? ? ? [v Hv] _ _|? [v Hv] _|[v Hv] _]; eauto. }
  destruct (py_eq_str v (HOSPITAL_ID environ)) eqn:Hown.
  { now rewrite (callback_own d v w Ho Hown). }
  destruct Hv as [z n a g s t _ Hu Ha|z _ Hd|_ Hd].
  - destruct (db w !! z) as [r|] eqn:Hz.
    + now rewrite (callback_upsert_present d v z _ _ _ s t w r Ho Hown Hu Hz).
    + now rewrite (callback_upsert_absent d v z n a g s t w Ho Hown Hu Ha Hz).
  - destruct (db w !! z) as [r|] eqn:Hz.
    + now rewrite (callback_delete_present d v z w r Ho Hown Hd Hz).
    + now rewrite (callback_delete_absent d v z w Ho Hown Hd Hz).
  - now rewrite (callback_delete_all d v w Ho Hown Hd).
Qed.

End Callback.

(** ** What the handlers publish *)

Ltac exec_handler :=
  cbv beta iota zeta delta
    [handle PatientCollection_post PatientCollection_delete PatientItem_put
     PatientItem_delete record_event send_to_broker json_serializable forallb
     with_app_context new_session request_json py_all_in py_in fields py_int py_str
     catches_value_type catches_integrity negb
     bind ret raise lift out_of_model log get_world set_txn set_db set_heap set_exchange
     subscript py_eq_str query_get setattr getattr deref new_Patient session_add
     session_commit session_delete session_remove session_rollback query_delete
     flush flush_from flush_obj try_except
     py_fromisoformat py_isoformat process_datetime driver_bind bind_all py_is_none orb
     store_string store_integer store_datetime
     obj_of_row obj_set obj_get obj_set_state identity_lookup bulk_deleted rollback_obj
     db txn heap clock exchange broker_up trace is_json json
     o_state o_id o_name o_age o_diagnosis_TEXT o_last_update
     name age diagnosis_TEXT last_update fst snd];
  cbn [lookup list_lookup insert list_insert app length fmap list_fmap].

(** Case analysis on the next test the run is stuck on. *)
Ltac crack :=
  match goal with
  | |- context [match ?v with PNone => _ | _ => _ end] => is_var v; destruct v
  | |- context [match ?e with IntegrityError => _ | _ => _ end] => is_var e; destruct e
  | |- context [match ?o with Some _ => _ | None => _ end] => is_var o; destruct o
  | |- context [if ?b then _ else _] => is_var b; destruct b
  | |- context [dict_get ?d ?k] => destruct (dict_get d k) eqn:?
  | |- context [is_int64 ?z] => destruct (is_int64 z) eqn:?
  | |- context [next_rowid ?t] => destruct (next_rowid t) eqn:?
  | |- context [@lookup Z Patient _ _ ?z ?t] => destruct (@lookup Z Patient _ _ z t) eqn:?
  | |- context [bool_decide ?P] => destruct (bool_decide P) eqn:?
  | |- context [existsb ?f ?l] => destruct (existsb f l) eqn:?
  | |- context [read_digits ?k ?a ?cs] => destruct (read_digits k a cs) as [[? ?]|] eqn:?
  | |- context [too_many_digits ?cs] => destruct (too_many_digits cs) eqn:?
  | |- context [list_ascii_of_string ?s] => destruct (list_ascii_of_string s) eqn:?
  end.

Ltac fields_solve :=
  split; [ reflexivity | repeat split; eauto ].

Ltac shape_solve :=
  unfold published_shape, record_fields_set, record_fields_null, is_int, is_text, is_null;
  cbn;
  first [ left; fields_solve | right; left; fields_solve | right; right; fields_solve ].

Ltac published_leaf :=
  first
    [ exists []; split; [ now rewrite app_nil_r | constructor ]
    | eexists [_]; split;
      [ reflexivity
      | constructor; [ split; [ shape_solve | reflexivity ] | constructor ] ] ].

Section Handlers.

Variable environ : gmap string string.

Lemma collection_delete_publishes w :
  exists new,
    exchange (snd (PatientCollection_delete environ w)) = (exchange w ++ new)%list /\
    Forall (well_published (HOSPITAL_ID environ)) new.
Proof.
  destruct w as [d t h c x bk tr]. exec_handler.
  repeat (crack; exec_handler); published_leaf.
Qed.

Lemma item_delete_publishes i w :
  exists new,
    exchange (snd (PatientItem_delete environ i w)) = (exchange w ++ new)%list /\
    Forall (well_published (HOSPITAL_ID environ)) new.
Proof.
  destruct w as [d t h c x bk tr]. exec_handler.
  repeat (crack; exec_handler); published_leaf.
Qed.

Lemma post_publishes req w :
  exists new,
    exchange (snd (PatientCollection_post environ req w)) = (exchange w ++ new)%list /\
    Forall (well_published (HOSPITAL_ID environ)) new.
Proof.
  destruct w as [d t h c x bk tr]. destruct req as [ij js]. exec_handler.
  repeat (crack; exec_handler); published_leaf.
Qed.

Lemma put_publishes i req w :
  exists new,
    exchange (snd (PatientItem_put environ i req w)) = (exchange w ++ new)%list /\
    Forall (well_published (HOSPITAL_ID environ)) new.
Proof.
  destruct w as [d t h c x bk tr]. destruct req as [ij js]. exec_handler.
  repeat (crack; exec_handler); published_leaf.
Qed.

End Handlers.

(** ** The published events are valid events *)

Lemma next_rowid_int64 (t : gmap Z Patient) z :
  next_rowid t = Ok z -> is_int64 z = true.
Proof.
  unfold next_rowid. destruct ((map_to_list t).*1) as [|k ks].
  - now intros [= <-].
  - destruct (is_int64 _) eqn:E; [now intros [= <-] | discriminate].
Qed.

Ltac valid_solve :=
  first
    [ solve [ eapply valid_upsert;
              [ eexists; reflexivity
              | split; try reflexivity; eauto using next_rowid_int64, fromisoformat_isoformat
              | eauto ] ]
    | solve [ eapply valid_delete;
              [ eexists; reflexivity
              | split; try reflexivity; eauto using next_rowid_int64 ] ]
    | solve [ apply valid_delete_all; [ eexists; reflexivity | reflexivity ] ] ].

Ltac valid_leaf :=
  first
    [ exists []; split; [ now rewrite app_nil_r | constructor ]
    | eexists [_]; split;
      [ reflexivity
      | constructor; [ eexists; split; [ reflexivity | valid_solve ] | constructor ] ] ].

(** With a proper clock, what a call of the API publishes is a valid event
    for the consumers. *)
Lemma handle_publishes_valid (environ : gmap string string) (c : api_call) (w : world) :
  datetime_ok (clock w) = true ->
  exists new,
    exchange (snd (handle environ c w)) = (exchange w ++ new)%list /\
    Forall decodes_valid new.
Proof.
  destruct w as [d t h ck x bk tr]. cbn [clock]. intros Hck.
  destruct c as [[ij js]| |i [ij js]|i]; exec_handler;
    repeat (crack; exec_handler); valid_leaf.
Qed.

(** ** Acknowledgement and the callback's trace *)

Lemma ack_free_ret {A} (a : A) : ack_free (ret a).
Proof. intros w. exists []. cbn. now rewrite app_nil_r. Qed.

Lemma ack_free_raise {A} e : ack_free (@raise A e).
Proof. intros w. exists []. cbn. now rewrite app_nil_r. Qed.

Lemma ack_free_out_of_model {A} : ack_free (@out_of_model A).
Proof. intros w. exists []. cbn. now rewrite app_nil_r. Qed.

Lemma ack_free_lift {A} (o : outcome A) : ack_free (lift o).
Proof. intros w. exists []. cbn. now rewrite app_nil_r. Qed.

Lemma ack_free_get_world : ack_free get_world.
Proof. intros w. exists []. cbn. now rewrite app_nil_r. Qed.

Lemma ack_free_set_txn t : ack_free (set_txn t).
Proof. intros w. exists []. cbn. now rewrite app_nil_r. Qed.

Lemma ack_free_set_db t : ack_free (set_db t).
Proof. intros w. exists []. cbn. now rewrite app_nil_r. Qed.

Lemma ack_free_set_heap h : ack_free (set_heap h).
Proof. intros w. exists []. cbn. now rewrite app_nil_r. Qed.

Lemma ack_free_log o : o <> OpAck -> ack_free (log o).
Proof. intros H w. exists [o]. cbn. split; [reflexivity | now constructor]. Qed.

Lemma ack_free_bind {A B} (m : M A) (k : A -> M B) :
  ack_free m -> (forall a, ack_free (k a)) -> ack_free (bind m k).
Proof.
  intros Hm Hk w. destruct (Hm w) as [ops [E F]]. unfold bind.
  destruct (m w) as [[a| e |] w1]; cbn in E.
  - destruct (Hk a w1) as [ops' [E' F']].
    exists (ops ++ ops')%list. rewrite E', E, app_assoc. split; [reflexivity|].
    now apply Forall_app.
  - exists ops. now split.
  - exists ops. now split.
Qed.

Lemma ack_free_with_app_context {A} (m : M A) :
  ack_free m -> ack_free (with_app_context m).
Proof.
  intros Hm w. destruct (Hm (new_session w)) as [ops [E F]].
  unfold with_app_context. destruct (m (new_session w)) as [r w1]; cbn in *.
  exists (ops ++ [OpRemove])%list. rewrite E, app_assoc. split; [reflexivity|].
  apply Forall_app. split; [assumption|]. now repeat constructor.
Qed.

Create HintDb ack_free.
#[local] Hint Resolve ack_free_ret ack_free_raise ack_free_out_of_model ack_free_lift
  ack_free_get_world ack_free_set_txn ack_free_set_db ack_free_set_heap : ack_free.

(** Walks down a computation built from the operations above. *)
Ltac ack_free_walk :=
  repeat first
    [ apply ack_free_bind; [ | intros ]
    | apply ack_free_with_app_context
    | apply ack_free_log; discriminate
    | solve [ auto with ack_free ]
    | match goal with
      | |- ack_free (match ?x with _ => _ end) => destruct x
      | |- ack_free (if ?b then _ else _) => destruct b
      end ].

Lemma ack_free_subscript v k : ack_free (subscript v k).
Proof. unfold subscript. ack_free_walk. Qed.

Lemma ack_free_deref a : ack_free (deref a).
Proof.
  intros w. exists []. unfold deref. destruct (heap w !! a); cbn; now rewrite app_nil_r.
Qed.
#[local] Hint Resolve ack_free_subscript ack_free_deref : ack_free.

Lemma ack_free_setattr a f v : ack_free (setattr a f v).
Proof. unfold setattr. ack_free_walk. Qed.

Lemma ack_free_new_Patient i n a g t : ack_free (new_Patient i n a g t).
Proof. unfold new_Patient. ack_free_walk. Qed.

Lemma ack_free_flush_obj a o : ack_free (flush_obj a o).
Proof. unfold flush_obj. ack_free_walk. Qed.
#[local] Hint Resolve ack_free_setattr ack_free_new_Patient ack_free_flush_obj : ack_free.

Lemma ack_free_flush_from n : forall a, ack_free (flush_from n a).
Proof. induction n as [|n IH]; intros a; cbn [flush_from]; ack_free_walk. Qed.
#[local] Hint Resolve ack_free_flush_from : ack_free.

Lemma ack_free_flush : ack_free flush.
Proof. unfold flush. ack_free_walk. Qed.
#[local] Hint Resolve ack_free_flush : ack_free.

Lemma ack_free_session_commit : ack_free session_commit.
Proof. unfold session_commit. ack_free_walk. Qed.

Lemma ack_free_session_add a : ack_free (session_add a).
Proof. unfold session_add. ack_free_walk. Qed.

Lemma ack_free_session_delete a : ack_free (session_delete a).
Proof. unfold session_delete. ack_free_walk. Qed.

Lemma ack_free_query_get key : ack_free (query_get key).
Proof. unfold query_get. ack_free_walk. Qed.

Lemma ack_free_query_delete : ack_free query_delete.
Proof. unfold query_delete. ack_free_walk. Qed.
#[local] Hint Resolve ack_free_session_commit ack_free_session_add ack_free_session_delete
  ack_free_query_get ack_free_query_delete : ack_free.

Lemma ack_free_callback_apply data : ack_free (callback_apply data).
Proof. unfold callback_apply. ack_free_walk. Qed.

Lemma ack_free_callback environ b : ack_free (callback environ b).
Proof.
  unfold callback, json_loads. pose proof ack_free_callback_apply. ack_free_walk.
Qed.

(** ** The properties of the specification *)

(** C1, counterexample. Two [add_or_update] events for id 1 whose
    last_update texts are those of [t1 < t2]: delivered older first to an empty table, the committed row is
    the one of the older event, not of the newer; and an older event applied
    to a table holding the newer row overwrites the fetched record. *)
Lemma last_write_wins_counterexample :
  dict_get jane_t1 "last_update" = Some (PStr (isoformat t1)) /\
  dict_get jane_t2 "last_update" = Some (PStr (isoformat t2)) /\
  dt_lt t1 t2 = true /\
  db (snd (start_consumer ∅ [Encodes (PDict jane_t1); Encodes (PDict jane_t2)] (idle ∅))) !! 1
    = Some jane_row_t1 /\
  jane_row_t1 <> jane_row_t2 /\
  heap (snd (callback_apply (PDict jane_t1) (new_session (idle {[1 := jane_row_t2]}))))
    = [mk_PatientObj Persistent (PInt 1) (PStr "Jane") (PInt 40) (PStr "flu") (PDatetime t1)].
Proof.
  split; [reflexivity|]. split; [reflexivity|].
  split; [reflexivity|]. split; [vm_compute; reflexivity|].
  split; [discriminate|]. vm_compute; reflexivity.
Qed.

(** C1, amended. For a remote [add_or_update] event whose id has a row, the
    callback runs its block in a new session, and the block assigns the
    event's name, age, diagnosis and last_update to the fetched record
    whatever the stored row [r] holds: no timestamps are compared. *)
Theorem upsert_overwrites_fetched_record
    (environ : gmap string string) d v z vn va vg s t w r :
  dict_get d "origin" = Some v ->
  py_eq_str v (HOSPITAL_ID environ) = false ->
  upsert_event d z vn va vg s t ->
  db w !! z = Some r ->
  callback environ (Encodes (PDict d)) w = with_app_context (callback_apply (PDict d)) w /\
  exists w1,
    callback_apply (PDict d) (new_session w) = (Ok tt, w1) /\
    heap w1 = [mk_PatientObj Persistent (PInt z) vn va vg (PDatetime t)].
Proof.
  intros Ho Hv Hu Hz. split; [now apply (callback_remote environ d v)|].
  eexists. split; [now apply (apply_upsert_present _ _ _ _ _ d z vn va vg s t r)|].
  reflexivity.
Qed.

Lemma upsert_overwrites_fetched_record_witness :
  callback ∅ (Encodes (PDict jane_t1)) (idle {[1 := jane_row_t2]}) =
    with_app_context (callback_apply (PDict jane_t1)) (idle {[1 := jane_row_t2]}) /\
  exists w1,
    callback_apply (PDict jane_t1) (new_session (idle {[1 := jane_row_t2]})) = (Ok tt, w1) /\
    heap w1 = [mk_PatientObj Persistent (PInt 1) (PStr "Jane") (PInt 40) (PStr "flu")
                 (PDatetime t1)].
Proof.
  apply (upsert_overwrites_fetched_record ∅ jane_t1 (PStr "hospital_b") 1
           (PStr "Jane") (PInt 40) (PStr "flu") "2026-03-01T08:00:00" t1
           (idle {[1 := jane_row_t2]}) jane_row_t2).
  - reflexivity.
  - reflexivity.
  - split; vm_compute; reflexivity.
  - vm_compute; reflexivity.
Defined.

(** C2, counterexample. One event from another hospital, delivered to an
    empty table: the acknowledgement comes first in the trace, the commit of
    the apply after it. *)
Lemma ack_before_commit_counterexample :
  trace (snd (start_consumer ∅ [Encodes (PDict jane_t1)] (idle ∅))) =
  [OpAck; OpQueryGet (PInt 1); OpAdd; OpCommit; OpRemove].
Proof. vm_compute; reflexivity. Qed.

(** C2, amended. For every message the consumer is handed, the message is
    acknowledged on delivery ([start_consumer] consumes with
    [auto_ack=True]): the acknowledgement is the first thing added to the
    trace; the callback runs from the world so acknowledged, and what it
    adds (every commit of the apply included) contains no acknowledgement.
    The consumer then goes on with the rest of the queue from the world the
    callback left, or ends with the callback's exception, so the same holds
    of each later message. *)
Theorem ack_on_delivery
    (environ : gmap string string) (b : body) (queue : list body) (w : world) :
  let acked := mk_world (db w) (txn w) (heap w) (clock w) (exchange w) (broker_up w)
                 (trace w ++ [OpAck]) in
  let after := snd (callback environ b acked) in
  (exists ops,
     trace (snd (start_consumer environ [b] w)) = (trace w ++ OpAck :: ops)%list /\
     trace after = (trace acked ++ ops)%list /\
     Forall (fun o => o <> OpAck) ops) /\
  start_consumer environ (b :: queue) w =
    match fst (callback environ b acked) with
    | Ok _ => start_consumer environ queue after
    | Raise e => (Raise e, after)
    | OutOfModel => (OutOfModel, after)
    end.
Proof.
  cbv zeta. unfold start_consumer. cbn [start_consuming].
  unfold on_message, bind, log, ret.
  set (acked := mk_world (db w) (txn w) (heap w) (clock w) (exchange w) (broker_up w)
                  (trace w ++ [OpAck])).
  destruct (ack_free_callback environ b acked) as [ops [E F]].
  destruct (callback environ b acked) as [[[]|e|] after]; cbn [fst snd] in E |- *;
    (split; [|reflexivity]); exists ops;
    (split; [rewrite E; unfold acked; cbn [trace]; now rewrite <- app_assoc|]);
    split; assumption.
Qed.

(** C3, counterexample. A body that is not JSON, followed by a valid event:
    the decode error leaves the consuming loop, and the event behind it is
    never applied. *)
Lemma decode_failure_counterexample :
  start_consumer ∅ [Undecodable; Encodes (PDict jane_t1)] (idle ∅) =
  (Raise JSONDecodeError, mk_world ∅ ∅ [] noon [] true [OpAck]).
Proof. vm_compute; reflexivity. Qed.

(** C3, amended. A body that fails to decode is not discarded: the callback
    raises [JSONDecodeError] with the world untouched, nothing catches it,
    and the consuming loop ends there with the rest of the queue unprocessed;
    a decoded object without an [origin] key ends it with [KeyError] in the
    same way. A body that decodes to a valid event is processed without an
    exception. *)
Theorem decode_failure_escapes
    (environ : gmap string string) (w : world) (queue : list body) (d d' : dict) :
  dict_get d "origin" = None ->
  valid_event d' ->
  callback environ Undecodable w = (Raise JSONDecodeError, w) /\
  start_consumer environ (Undecodable :: queue) w =
    (Raise JSONDecodeError,
     mk_world (db w) (txn w) (heap w) (clock w) (exchange w) (broker_up w)
       (trace w ++ [OpAck])) /\
  start_consumer environ (Encodes (PDict d) :: queue) w =
    (Raise (KeyError "origin"),
     mk_world (db w) (txn w) (heap w) (clock w) (exchange w) (broker_up w)
       (trace w ++ [OpAck])) /\
  fst (callback environ (Encodes (PDict d')) w) = Ok tt.
Proof.
  intros Ho Hv. split; [reflexivity|]. split; [reflexivity|]. split.
  - unfold start_consumer. cbn [start_consuming].
    unfold on_message, callback.
    cbv beta iota zeta delta [json_loads bind ret raise log subscript].
    now rewrite Ho.
  - apply (callback_valid_returns environ d' w Hv).
Qed.

Lemma decode_failure_escapes_witness :
  callback ∅ Undecodable (idle ∅) = (Raise JSONDecodeError, idle ∅) /\
  start_consumer ∅ [Undecodable; Encodes (PDict jane_t1)] (idle ∅) =
    (Raise JSONDecodeError, mk_world ∅ ∅ [] noon [] true ([] ++ [OpAck])) /\
  start_consumer ∅ [Encodes (PDict [("action", PStr "delete_all")]); Encodes (PDict jane_t1)]
      (idle ∅) =
    (Raise (KeyError "origin"), mk_world ∅ ∅ [] noon [] true ([] ++ [OpAck])) /\
  fst (callback ∅ (Encodes (PDict jane_t1)) (idle ∅)) = Ok tt.
Proof.
  apply (decode_failure_escapes ∅ (idle ∅) [Encodes (PDict jane_t1)]
           [("action", PStr "delete_all")] jane_t1).
  - reflexivity.
  - apply (valid_upsert jane_t1 1 "Jane" 40 "flu" "2026-03-01T08:00:00" t1).
    + exists (PStr "hospital_b"). reflexivity.
    + split; vm_compute; reflexivity.
    + reflexivity.
Defined.

(** C4. Apply is idempotent: a valid event (of any of the three actions) is
    applied without an exception, and applying it a second time leaves the
    committed table exactly as the first application left it. *)
Theorem apply_idempotent (environ : gmap string string) (d : dict) (w : world) :
  valid_event d ->
  let once := callback environ (Encodes (PDict d)) w in
  let twice := callback environ (Encodes (PDict d)) (snd once) in
  fst once = Ok tt /\ fst twice = Ok tt /\ db (snd twice) = db (snd once).
Proof.
  intros Hv.
  assert (exists v, dict_get d "origin" = Some v) as [v Ho].
  { destruct Hv as [? ? ? ? ? ? [v Hv] _ _|? [v Hv] _|[v Hv] _]; eauto. }
  destruct (py_eq_str v (HOSPITAL_ID environ)) eqn:Hown.
  { (* an echo of this node: both deliveries are discarded *)
    cbv zeta. rewrite (callback_own environ d v w Ho Hown). cbn [fst snd].
    rewrite (callback_own environ d v w Ho Hown). auto. }
  destruct Hv as [z n a g s t _ Hu Ha|z _ Hd|_ Hd]; cbv zeta.
  - (* add_or_update: after the first delivery the id has a row *)
    destruct (db w !! z) as [r|] eqn:Hz.
    + rewrite (callback_upsert_present environ d v z _ _ _ s t w r Ho Hown Hu Hz).
      cbn [fst snd].
      erewrite callback_upsert_present; eauto.
    + rewrite (callback_upsert_absent environ d v z n a g s t w Ho Hown Hu Ha Hz).
      cbn [fst snd].
      erewrite callback_upsert_present; eauto. apply lookup_insert_eq.
  - (* delete: after the first delivery the id has no row *)
    destruct (db w !! z) as [r|] eqn:Hz.
    + rewrite (callback_delete_present environ d v z w r Ho Hown Hd Hz). cbn [fst snd].
      erewrite callback_delete_absent; eauto. apply lookup_delete_eq.
    + rewrite (callback_delete_absent environ d v z w Ho Hown Hd Hz). cbn [fst snd].
      erewrite callback_delete_absent; eauto.
  - (* delete_all: the table is empty after each delivery *)
    rewrite (callback_delete_all environ d v w Ho Hown Hd). cbn [fst snd].
    erewrite callback_delete_all; eauto.
Qed.

Lemma apply_idempotent_witness :
  let once := callback ∅ (Encodes (PDict jane_t1)) (idle ∅) in
  let twice := callback ∅ (Encodes (PDict jane_t1)) (snd once) in
  fst once = Ok tt /\ fst twice = Ok tt /\ db (snd twice) = db (snd once).
Proof.
  apply (apply_idempotent ∅ jane_t1 (idle ∅)).
  apply (valid_upsert jane_t1 1 "Jane" 40 "flu" "2026-03-01T08:00:00" t1).
  - exists (PStr "hospital_b"). reflexivity.
  - split; vm_compute; reflexivity.
  - reflexivity.
Defined.

(** C5. Self-echo suppression: an event whose origin is this node's
    identifier is discarded: the callback returns with the world (the table,
    the session, the trace of session calls) exactly as it found it. *)
Theorem self_echo_discarded (environ : gmap string string) (d : dict) (w : world) :
  dict_get d "origin" = Some (PStr (HOSPITAL_ID environ)) ->
  callback environ (Encodes (PDict d)) w = (Ok tt, w).
Proof.
  intros Ho. apply (callback_own environ d _ w Ho). cbn. apply String.eqb_refl.
Qed.

Lemma self_echo_discarded_witness :
  callback ∅ (Encodes (PDict own_event)) (idle ∅) = (Ok tt, idle ∅).
Proof. apply (self_echo_discarded ∅ own_event (idle ∅)). reflexivity. Defined.

(** C6. Clear-all: applying a [delete_all] event of another node leaves the
    committed table empty, whatever it held before. *)
Theorem delete_all_empties_store (environ : gmap string string) (d : dict) v (w : world) :
  dict_get d "origin" = Some v ->
  py_eq_str v (HOSPITAL_ID environ) = false ->
  delete_all_event d ->
  fst (callback environ (Encodes (PDict d)) w) = Ok tt /\
  db (snd (callback environ (Encodes (PDict d)) w)) = ∅.
Proof.
  intros Ho Hv Hd. rewrite (callback_delete_all environ d v w Ho Hv Hd). split; reflexivity.
Qed.

Lemma delete_all_empties_store_witness :
  fst (callback ∅ (Encodes (PDict all_deleted)) (idle {[1 := jane_row_t1; 7 := jane_row_t2]}))
    = Ok tt /\
  db (snd (callback ∅ (Encodes (PDict all_deleted)) (idle {[1 := jane_row_t1; 7 := jane_row_t2]})))
    = ∅.
Proof.
  apply (delete_all_empties_store ∅ all_deleted (PStr "hospital_b")
           (idle {[1 := jane_row_t1; 7 := jane_row_t2]})); reflexivity.
Defined.

(** C7. A remote [add_or_update] event for an id that has a row: the block
    assigns the event's values to the fetched record, and the callback
    returns without having called commit (its session calls are the lookup
    and the teardown), the committed table being what it was. *)
Theorem upsert_existing_not_committed
    (environ : gmap string string) d v z vn va vg s t w r :
  dict_get d "origin" = Some v ->
  py_eq_str v (HOSPITAL_ID environ) = false ->
  upsert_event d z vn va vg s t ->
  db w !! z = Some r ->
  (exists w1,
     callback_apply (PDict d) (new_session w) = (Ok tt, w1) /\
     heap w1 = [mk_PatientObj Persistent (PInt z) vn va vg (PDatetime t)] /\
     db w1 = db w) /\
  fst (callback environ (Encodes (PDict d)) w) = Ok tt /\
  db (snd (callback environ (Encodes (PDict d)) w)) = db w /\
  trace (snd (callback environ (Encodes (PDict d)) w)) =
    (trace w ++ [OpQueryGet (PInt z); OpRemove])%list.
Proof.
  intros Ho Hv Hu Hz. split.
  - eexists. split; [now apply (apply_upsert_present _ _ _ _ _ d z vn va vg s t r)|].
    split; reflexivity.
  - rewrite (callback_upsert_present environ d v z vn va vg s t w r Ho Hv Hu Hz).
    repeat split.
Qed.

Lemma upsert_existing_not_committed_witness :
  (exists w1,
     callback_apply (PDict jane_t2) (new_session (idle {[1 := jane_row_t1]})) = (Ok tt, w1) /\
     heap w1 = [mk_PatientObj Persistent (PInt 1) (PStr "Jane") (PInt 41) (PStr "pneumonia")
                  (PDatetime t2)] /\
     db w1 = db (idle {[1 := jane_row_t1]})) /\
  fst (callback ∅ (Encodes (PDict jane_t2)) (idle {[1 := jane_row_t1]})) = Ok tt /\
  db (snd (callback ∅ (Encodes (PDict jane_t2)) (idle {[1 := jane_row_t1]})))
    = db (idle {[1 := jane_row_t1]}) /\
  trace (snd (callback ∅ (Encodes (PDict jane_t2)) (idle {[1 := jane_row_t1]}))) =
    (trace (idle {[1 := jane_row_t1]}) ++ [OpQueryGet (PInt 1); OpRemove])%list.
Proof.
  apply (upsert_existing_not_committed ∅ jane_t2 (PStr "hospital_b") 1
           (PStr "Jane") (PInt 41) (PStr "pneumonia") "2026-03-02T08:00:00" t2
           (idle {[1 := jane_row_t1]}) jane_row_t1).
  - reflexivity.
  - reflexivity.
  - split; vm_compute; reflexivity.
  - vm_compute; reflexivity.
Defined.

(** What a call of the API publishes, by handler. *)
Lemma handle_publishes (environ : gmap string string) (c : api_call) (w : world) :
  exists new,
    exchange (snd (handle environ c w)) = (exchange w ++ new)%list /\
    Forall (well_published (HOSPITAL_ID environ)) new.
Proof.
  destruct c as [req| |i req|i]; cbn [handle].
  - apply post_publishes.
  - apply collection_delete_publishes.
  - apply put_publishes.
  - apply item_delete_publishes.
Qed.








(** ** Further properties of the callback and of the handlers *)

(** X1. A remote [add_or_update] event for an id without a row creates the
    row with the event's name, age, diagnosis and last_update, and commits
    it. *)
Theorem upsert_absent_creates_record
    (environ : gmap string string) d v z n a g s t (w : world) :
  dict_get d "origin" = Some v ->
  py_eq_str v (HOSPITAL_ID environ) = false ->
  upsert_event d z (PStr n) (PInt a) (PStr g) s t -> is_int64 a = true ->
  db w !! z = None ->
  fst (callback environ (Encodes (PDict d)) w) = Ok tt /\
  db (snd (callback environ (Encodes (PDict d)) w)) = <[z := mk_Patient n a g t]> (db w) /\
  trace (snd (callback environ (Encodes (PDict d)) w)) =
    (trace w ++ [OpQueryGet (PInt z); OpAdd; OpCommit; OpRemove])%list.
Proof.
  intros Ho Hv Hu Ha Hz.
  rewrite (callback_upsert_absent environ d v z n a g s t w Ho Hv Hu Ha Hz). repeat split.
Qed.

Lemma upsert_absent_creates_record_witness :
  fst (callback ∅ (Encodes (PDict jane_t1)) (idle ∅)) = Ok tt /\
  db (snd (callback ∅ (Encodes (PDict jane_t1)) (idle ∅))) = <[1 := jane_row_t1]> (db (idle ∅)) /\
  trace (snd (callback ∅ (Encodes (PDict jane_t1)) (idle ∅))) =
    (trace (idle ∅) ++ [OpQueryGet (PInt 1); OpAdd; OpCommit; OpRemove])%list.
Proof.
  apply (upsert_absent_creates_record ∅ jane_t1 (PStr "hospital_b") 1 "Jane" 40 "flu"
           "2026-03-01T08:00:00" t1 (idle ∅)).
  - reflexivity.
  - reflexivity.
  - split; vm_compute; reflexivity.
  - reflexivity.
  - vm_compute; reflexivity.
Defined.

(** X2. A remote [delete] event for an id that has a row deletes the row and
    commits the deletion. *)
Theorem delete_existing_removes_record
    (environ : gmap string string) d v z r (w : world) :
  dict_get d "origin" = Some v ->
  py_eq_str v (HOSPITAL_ID environ) = false ->
  delete_event d z ->
  db w !! z = Some r ->
  fst (callback environ (Encodes (PDict d)) w) = Ok tt /\
  db (snd (callback environ (Encodes (PDict d)) w)) = delete z (db w) /\
  trace (snd (callback environ (Encodes (PDict d)) w)) =
    (trace w ++ [OpQueryGet (PInt z); OpDelete; OpCommit; OpRemove])%list.
Proof.
  intros Ho Hv Hd Hz.
  rewrite (callback_delete_present environ d v z w r Ho Hv Hd Hz). repeat split.
Qed.

Lemma delete_existing_removes_record_witness :
  fst (callback ∅ (Encodes (PDict jane_deleted)) (idle {[1 := jane_row_t1]})) = Ok tt /\
  db (snd (callback ∅ (Encodes (PDict jane_deleted)) (idle {[1 := jane_row_t1]})))
    = delete 1 (db (idle {[1 := jane_row_t1]})) /\
  trace (snd (callback ∅ (Encodes (PDict jane_deleted)) (idle {[1 := jane_row_t1]}))) =
    (trace (idle {[1 := jane_row_t1]}) ++ [OpQueryGet (PInt 1); OpDelete; OpCommit; OpRemove])%list.
Proof.
  apply (delete_existing_removes_record ∅ jane_deleted (PStr "hospital_b") 1 jane_row_t1
           (idle {[1 := jane_row_t1]})).
  - reflexivity.
  - reflexivity.
  - split; reflexivity.
  - vm_compute; reflexivity.
Defined.

(** X3. Delete-then-recreate: a remote [delete] for an id followed by a
    remote [add_or_update] for the same id leaves the id with the row of the
    second event, whether or not the id had a row before. *)
Theorem delete_then_recreate
    (environ : gmap string string) d1 d2 v1 v2 z n a g s t (w : world) :
  dict_get d1 "origin" = Some v1 -> py_eq_str v1 (HOSPITAL_ID environ) = false ->
  dict_get d2 "origin" = Some v2 -> py_eq_str v2 (HOSPITAL_ID environ) = false ->
  delete_event d1 z ->
  upsert_event d2 z (PStr n) (PInt a) (PStr g) s t -> is_int64 a = true ->
  fst (start_consumer environ [Encodes (PDict d1); Encodes (PDict d2)] w) = Ok tt /\
  db (snd (start_consumer environ [Encodes (PDict d1); Encodes (PDict d2)] w)) =
    <[z := mk_Patient n a g t]> (db w).
Proof.
  intros Ho1 Hv1 Ho2 Hv2 Hd Hu Ha.
  unfold start_consumer. cbn [start_consuming]. unfold on_message.
  cbv beta iota zeta delta [bind log ret].
  destruct (db w !! z) as [r|] eqn:Hz.
  - erewrite callback_delete_present by eauto.
    erewrite callback_upsert_absent by (eauto; cbn; apply lookup_delete_eq).
    cbn. split; [reflexivity|]. apply insert_delete_eq.
  - erewrite callback_delete_absent by eauto.
    erewrite callback_upsert_absent by eauto.
    cbn. split; reflexivity.
Qed.

Lemma delete_then_recreate_witness :
  fst (start_consumer ∅ [Encodes (PDict jane_deleted); Encodes (PDict jane_t2)]
         (idle {[1 := jane_row_t1]})) = Ok tt /\
  db (snd (start_consumer ∅ [Encodes (PDict jane_deleted); Encodes (PDict jane_t2)]
             (idle {[1 := jane_row_t1]}))) =
    <[1 := jane_row_t2]> (db (idle {[1 := jane_row_t1]})).
Proof.
  apply (delete_then_recreate ∅ jane_deleted jane_t2 (PStr "hospital_b") (PStr "hospital_b")
           1 "Jane" 41 "pneumonia" "2026-03-02T08:00:00" t2 (idle {[1 := jane_row_t1]})).
  - reflexivity.
  - reflexivity.
  - reflexivity.
  - reflexivity.
  - split; reflexivity.
  - split; vm_compute; reflexivity.
  - reflexivity.
Defined.

(** The scenario of two hospitals: A creates Jane and publishes the
    event, B's consumer applies it and holds the same row; A deletes the
    record and publishes the deletion, B's consumer applies it; A's own
    consumer, handed A's events, changes nothing. Both tables end empty. *)
Theorem two_hospitals_scenario :
  let a1 := snd (handle ∅ (POST_patients jane_request) (idle ∅)) in
  let b1 := snd (start_consumer hospital_b_env (Encodes <$> exchange a1) (idle ∅)) in
  let a2 := snd (handle ∅ (DELETE_patient 1) a1) in
  let b2 := snd (start_consumer hospital_b_env (Encodes <$> drop 1 (exchange a2)) b1) in
  let a3 := snd (start_consumer ∅ (Encodes <$> exchange a2) a2) in
  db a1 = {[1 := mk_Patient "Jane" 40 "flu" noon]} /\
  db b1 = {[1 := mk_Patient "Jane" 40 "flu" noon]} /\
  db a2 = ∅ /\ db b2 = ∅ /\ db a3 = ∅.
Proof. vm_compute. repeat split. Qed.

(** X4. With a proper clock, every event a handler of one node publishes is
    applied by the callback of any node, in any state, without an
    exception. *)
Theorem published_events_apply
    (environ environ' : gmap string string) (c : api_call) (w w' : world) :
  datetime_ok (clock w) = true ->
  exists new,
    exchange (snd (handle environ c w)) = (exchange w ++ new)%list /\
    Forall decodes_valid new /\
    Forall (fun e => fst (callback environ' (Encodes e) w') = Ok tt) new.
Proof.
  intros Hck. destruct (handle_publishes_valid environ c w Hck) as [new [E F]].
  exists new. split; [assumption|]. split; [assumption|].
  eapply Forall_impl; [exact F|]. intros e [d [-> Hd]].
  apply (callback_valid_returns environ' d w' Hd).
Qed.

Lemma published_events_apply_witness :
  exists new,
    exchange (snd (handle ∅ (POST_patients jane_request) (idle ∅))) =
      (exchange (idle ∅) ++ new)%list /\
    Forall decodes_valid new /\
    Forall (fun e => fst (callback hospital_b_env (Encodes e) (idle ∅)) = Ok tt) new.
Proof.
  apply (published_events_apply ∅ hospital_b_env (POST_patients jane_request) (idle ∅) (idle ∅)).
  reflexivity.
Defined.

(** * Further proofs *)

(** ** Relations every session operation keeps *)

Section Stable.

Variable R : world -> world -> Prop.
Hypothesis R_refl : forall w, R w w.
Hypothesis R_trans : forall a b c, R a b -> R b c -> R a c.
(** [R] does not look at the open transaction, the instances or the trace. *)
Hypothesis R_session :
  forall w t h tr, R w (mk_world (db w) t h (clock w) (exchange w) (broker_up w) tr).
Hypothesis R_commit : stable R session_commit.

Lemma stable_ret {A} (a : A) : stable R (ret a).
Proof. intros w. apply R_refl. Qed.

Lemma stable_raise {A} e : stable R (@raise A e).
Proof. intros w. apply R_refl. Qed.

Lemma stable_out_of_model {A} : stable R (@out_of_model A).
Proof. intros w. apply R_refl. Qed.

Lemma stable_lift {A} (o : outcome A) : stable R (lift o).
Proof. intros w. apply R_refl. Qed.

Lemma stable_get_world : stable R get_world.
Proof. intros w. apply R_refl. Qed.

Lemma stable_set_txn t : stable R (set_txn t).
Proof. intros w. apply R_session. Qed.

Lemma stable_set_heap h : stable R (set_heap h).
Proof. intros w. apply R_session. Qed.

Lemma stable_log o : stable R (log o).
Proof. intros w. apply R_session. Qed.

Lemma stable_bind {A B} (m : M A) (k : A -> M B) :
  stable R m -> (forall a, stable R (k a)) -> stable R (bind m k).
Proof.
  intros Hm Hk w. specialize (Hm w). unfold bind.
  destruct (m w) as [[a|e|] w1]; cbn in Hm |- *; [|assumption|assumption].
  eapply R_trans; [exact Hm | apply Hk].
Qed.

Lemma stable_try_except {A} (m h : M A) catches :
  stable R m -> stable R h -> stable R (try_except m catches h).
Proof.
  intros Hm Hh w. specialize (Hm w). unfold try_except.
  destruct (m w) as [[a|e|] w1]; cbn in Hm |- *; [assumption| |assumption].
  destruct (catches e); [|assumption].
  eapply R_trans; [exact Hm | apply Hh].
Qed.

Lemma stable_with_app_context {A} (m : M A) :
  stable R m -> stable R (with_app_context m).
Proof.
  intros Hm w. specialize (Hm (new_session w)). unfold with_app_context.
  destruct (m (new_session w)) as [r w1]; cbn in Hm |- *.
  eapply R_trans; [apply (R_session w (db w) [] (trace w))|].
  eapply R_trans; [exact Hm|]. apply R_session.
Qed.

Create HintDb stable.
#[local] Hint Resolve stable_ret stable_raise stable_out_of_model stable_lift
  stable_get_world stable_set_txn stable_set_heap stable_log : stable.

Ltac stable_walk :=
  repeat first
    [ solve [ auto with stable ]
    | apply stable_bind; [ | intros ]
    | apply stable_try_except
    | apply stable_with_app_context
    | match goal with
      | |- stable _ (match ?x with _ => _ end) => destruct x
      | |- stable _ (if ?b then _ else _) => destruct b
      end ].

Lemma stable_subscript v k : stable R (subscript v k).
Proof. unfold subscript. stable_walk. Qed.

Lemma stable_deref a : stable R (deref a).
Proof. intros w. unfold deref. destruct (heap w !! a); apply R_refl. Qed.
#[local] Hint Resolve stable_subscript stable_deref : stable.

Lemma stable_getattr a f : stable R (getattr a f).
Proof. unfold getattr. stable_walk. Qed.

Lemma stable_setattr a f v : stable R (setattr a f v).
Proof. unfold setattr. stable_walk. Qed.

Lemma stable_new_Patient i n a g t : stable R (new_Patient i n a g t).
Proof. unfold new_Patient. stable_walk. Qed.

Lemma stable_flush_obj a o : stable R (flush_obj a o).
Proof. unfold flush_obj. stable_walk. Qed.
#[local] Hint Resolve stable_getattr stable_setattr stable_new_Patient stable_flush_obj : stable.

Lemma stable_flush_from n : forall a, stable R (flush_from n a).
Proof. induction n as [|n IH]; intros a; cbn [flush_from]; stable_walk. Qed.
#[local] Hint Resolve stable_flush_from : stable.

Lemma stable_flush : stable R flush.
Proof. unfold flush. stable_walk. Qed.
#[local] Hint Resolve stable_flush : stable.

Lemma stable_session_add a : stable R (session_add a).
Proof. unfold session_add. stable_walk. Qed.

Lemma stable_session_delete a : stable R (session_delete a).
Proof. unfold session_delete. stable_walk. Qed.

Lemma stable_query_get key : stable R (query_get key).
Proof. unfold query_get. stable_walk. Qed.

Lemma stable_query_delete : stable R query_delete.
Proof. unfold query_delete. stable_walk. Qed.

Lemma stable_load_row zr : stable R (load_row zr).
Proof. unfold load_row. stable_walk. Qed.
#[local] Hint Resolve stable_session_add stable_session_delete stable_query_get
  stable_query_delete stable_load_row : stable.

Lemma stable_load_rows rows : stable R (load_rows rows).
Proof. induction rows as [|zr rows IH]; cbn [load_rows]; stable_walk. Qed.
#[local] Hint Resolve stable_load_rows : stable.

Lemma stable_query_all : stable R query_all.
Proof. unfold query_all. stable_walk. Qed.

Lemma stable_patient_data_of p : stable R (patient_data_of p).
Proof. unfold patient_data_of. stable_walk. Qed.
#[local] Hint Resolve stable_query_all stable_patient_data_of : stable.

Lemma stable_collect_patients ps : forall acc, stable R (collect_patients ps acc).
Proof. induction ps as [|p ps IH]; intros acc; cbn [collect_patients]; stable_walk. Qed.
#[local] Hint Resolve stable_collect_patients : stable.

Lemma stable_PatientCollection_get : stable R PatientCollection_get.
Proof. unfold PatientCollection_get. stable_walk. Qed.

Lemma stable_PatientItem_get i : stable R (PatientItem_get i).
Proof. unfold PatientItem_get. stable_walk. Qed.

Lemma stable_callback_apply data : stable R (callback_apply data).
Proof. unfold callback_apply. pose proof R_commit. stable_walk. Qed.

Lemma stable_callback environ b : stable R (callback environ b).
Proof.
  unfold callback, json_loads. pose proof stable_callback_apply. stable_walk.
Qed.

Lemma stable_start_consuming environ auto_ack queue :
  stable R (start_consuming environ auto_ack queue).
Proof.
  induction queue as [|b queue IH]; cbn [start_consuming]; [apply stable_ret|].
  unfold on_message. pose proof stable_callback. stable_walk.
Qed.

End Stable.

Lemma same_exchange_refl w : same_exchange w w.
Proof. split; reflexivity. Qed.

Lemma same_exchange_trans a b c :
  same_exchange a b -> same_exchange b c -> same_exchange a c.
Proof. unfold same_exchange. intros [-> ->] [-> ->]. split; reflexivity. Qed.

Lemma same_exchange_session w t h tr :
  same_exchange w (mk_world (db w) t h (clock w) (exchange w) (broker_up w) tr).
Proof. split; reflexivity. Qed.

Lemma same_exchange_commit : stable same_exchange session_commit.
Proof.
  unfold session_commit.
  apply (stable_bind _ same_exchange_trans);
    [apply (stable_log _ same_exchange_session) | intros _].
  apply (stable_bind _ same_exchange_trans);
    [apply (stable_flush _ same_exchange_refl same_exchange_trans same_exchange_session)
    | intros _].
  apply (stable_bind _ same_exchange_trans); [intros w; apply same_exchange_refl | intros w0].
  intros w. split; reflexivity.
Qed.

Lemma same_store_refl w : same_store w w.
Proof. repeat split. Qed.

Lemma same_store_trans a b c : same_store a b -> same_store b c -> same_store a c.
Proof. unfold same_store. intros (-> & -> & ->) (-> & -> & ->). repeat split. Qed.

Lemma same_store_session w t h tr :
  same_store w (mk_world (db w) t h (clock w) (exchange w) (broker_up w) tr).
Proof. repeat split. Qed.

(** ** The consumer never publishes *)

(** X5. Whatever the queue delivers (undecodable bodies, malformed or valid
    events, own or foreign), the consumer publishes nothing: the exchange is
    after the loop what it was before, so an applied event is never
    re-broadcast. *)
Theorem consumer_never_publishes
    (environ : gmap string string) (queue : list body) (w : world) :
  exchange (snd (start_consumer environ queue w)) = exchange w.
Proof.
  apply (stable_start_consuming same_exchange same_exchange_refl same_exchange_trans
           same_exchange_session same_exchange_commit environ true queue w).
Qed.

(** ** The reading handlers change nothing *)

(** X19. [GET /patients] and [GET /patients/<id>] are read-only: whatever
    they answer, the committed table and the exchange are what they were. *)
Theorem reading_handlers_change_nothing (i : Z) (w : world) :
  (db (snd (PatientCollection_get w)) = db w /\
   exchange (snd (PatientCollection_get w)) = exchange w) /\
  (db (snd (PatientItem_get i w)) = db w /\
   exchange (snd (PatientItem_get i w)) = exchange w).
Proof.
  split.
  - destruct (stable_PatientCollection_get same_store same_store_refl same_store_trans
                same_store_session w) as (Hd & Hx & _). now split.
  - destruct (stable_PatientItem_get same_store same_store_refl same_store_trans
                same_store_session i w) as (Hd & Hx & _). now split.
Qed.

(** ** A callback that fails commits nothing *)

(** As [exec], for the whole callback, with the comparisons of strings left
    folded. *)
Ltac exec_callback :=
  cbv beta iota zeta delta
    [callback callback_apply json_loads with_app_context new_session
     bind ret raise lift out_of_model log get_world set_txn set_db set_heap set_exchange
     subscript query_get setattr getattr deref new_Patient session_add
     session_commit session_delete session_remove session_rollback query_delete
     flush flush_from flush_obj try_except
     py_fromisoformat process_datetime driver_bind bind_all py_is_none orb
     store_string store_integer store_datetime
     obj_of_row obj_set obj_get obj_set_state identity_lookup bulk_deleted rollback_obj
     db txn heap clock exchange broker_up trace
     o_state o_id o_name o_age o_diagnosis_TEXT o_last_update
     name age diagnosis_TEXT last_update fst snd];
  cbn [lookup list_lookup insert list_insert app length fmap list_fmap].

Ltac crack_callback :=
  match goal with
  | |- context [match ?v with PNone => _ | _ => _ end] => is_var v; destruct v
  | |- context [match ?b with Undecodable => _ | _ => _ end] => is_var b; destruct b
  | |- context [dict_get ?d ?k] => destruct (dict_get d k) eqn:?
  | |- context [py_eq_str ?v ?s] => destruct (py_eq_str v s) eqn:?
  | |- context [is_int64 ?z] => destruct (is_int64 z) eqn:?
  | |- context [fromisoformat ?s] => destruct (fromisoformat s) eqn:?
  | |- context [@lookup Z Patient _ _ ?z ?t] => destruct (@lookup Z Patient _ _ z t) eqn:?
  end.

(** X6. Whenever the callback raises (nothing in it catches an exception),
    nothing was committed: the committed table is what it was before the
    message. *)
Theorem callback_failure_commits_nothing
    (environ : gmap string string) (b : body) (e : exn) (w : world) :
  fst (callback environ b w) = Raise e ->
  db (snd (callback environ b w)) = db w.
Proof.
  destruct w as [d t h c x bk tr]. exec_callback.
  repeat (crack_callback; exec_callback);
    intros H; first [ reflexivity | discriminate H ].
Qed.

Lemma callback_failure_commits_nothing_witness :
  db (snd (callback ∅ (Encodes (PDict [("origin", PStr "hospital_b")]))
             (idle {[1 := jane_row_t1]}))) = db (idle {[1 := jane_row_t1]}).
Proof.
  apply (callback_failure_commits_nothing ∅ (Encodes (PDict [("origin", PStr "hospital_b")]))
           (KeyError "action") (idle {[1 := jane_row_t1]})).
  vm_compute. reflexivity.
Defined.

(** ** Events of an unknown action *)

(** X7. An event of another node whose action is none of [add_or_update],
    [delete] and [delete_all] is silently ignored: the callback returns
    normally, its only session call is the teardown, and the committed table
    is unchanged. *)
Theorem unknown_action_ignored (environ : gmap string string) d v a (w : world) :
  dict_get d "origin" = Some v ->
  py_eq_str v (HOSPITAL_ID environ) = false ->
  dict_get d "action" = Some a ->
  py_eq_str a "add_or_update" = false ->
  py_eq_str a "delete" = false ->
  py_eq_str a "delete_all" = false ->
  callback environ (Encodes (PDict d)) w =
  (Ok tt, mk_world (db w) (db w) [] (clock w) (exchange w) (broker_up w)
            (trace w ++ [OpRemove])).
Proof.
  intros Ho Hv Ha H1 H2 H3.
  apply (callback_remote_run environ d v w (Ok tt) (new_session w) Ho Hv).
  unfold callback_apply, subscript. rewrite Ha.
  cbv beta iota zeta delta [bind ret]. now rewrite H1, H2, H3.
Qed.

Lemma unknown_action_ignored_witness :
  callback ∅ (Encodes (PDict (event_of "upsert" 1 "Jane" 40 "flu" "2026-03-01T08:00:00"
                                "hospital_b"))) (idle ∅) =
  (Ok tt, mk_world (db (idle ∅)) (db (idle ∅)) [] (clock (idle ∅)) (exchange (idle ∅))
            (broker_up (idle ∅)) (trace (idle ∅) ++ [OpRemove])).
Proof.
  apply (unknown_action_ignored ∅
           (event_of "upsert" 1 "Jane" 40 "flu" "2026-03-01T08:00:00" "hospital_b")
           (PStr "hospital_b") (PStr "upsert") (idle ∅)); reflexivity.
Defined.

(** ** The consuming loop *)

Lemma acks_app a b : acks (a ++ b) = (acks a + acks b)%nat.
Proof. unfold acks. now rewrite List.filter_app, length_app. Qed.

Lemma acks_none ops : Forall (fun o => o <> OpAck) ops -> acks ops = 0%nat.
Proof.
  unfold acks. induction 1 as [|o ops Ho _ IH]; [reflexivity|].
  cbn. destruct o; cbn; try assumption. now contradiction Ho.
Qed.

Lemma start_consuming_app (environ : gmap string string) auto_ack q1 q2 (w : world) :
  start_consuming environ auto_ack (q1 ++ q2) w =
  bind (start_consuming environ auto_ack q1)
       (fun _ => start_consuming environ auto_ack q2) w.
Proof.
  revert w. induction q1 as [|b q1 IH]; intros w; [reflexivity|].
  cbn [app start_consuming]. unfold bind at 1 2 3.
  destruct (on_message environ auto_ack b w) as [[[]|e|] w1]; [|reflexivity|reflexivity].
  apply IH.
Qed.

(** X8. A queue of valid events is consumed to its end without an
    exception, and the trace gains exactly one acknowledgement for each
    message. *)
Theorem consumer_valid_queue (environ : gmap string string) queue : forall w,
  Forall valid_body queue ->
  fst (start_consumer environ queue w) = Ok tt /\
  exists ops,
    trace (snd (start_consumer environ queue w)) = (trace w ++ ops)%list /\
    acks ops = length queue.
Proof.
  unfold start_consumer.
  induction queue as [|b queue IH]; intros w Hq.
  - split; [reflexivity|]. exists []. cbn. now rewrite app_nil_r.
  - inversion Hq as [|? ? [d [-> Hd]] Hq']; subst.
    cbn [start_consuming]. unfold on_message.
    cbv beta iota zeta delta [bind log].
    set (w0 := mk_world (db w) (txn w) (heap w) (clock w) (exchange w) (broker_up w)
                (trace w ++ [OpAck])).
    pose proof (callback_valid_returns environ d w0 Hd) as Hok.
    destruct (ack_free_callback environ (Encodes (PDict d)) w0) as [ops [E F]].
    destruct (callback environ (Encodes (PDict d)) w0) as [r w1]; cbn in Hok, E; subst r.
    destruct (IH w1 Hq') as [Hfst [ops' [E' N']]].
    split; [assumption|].
    exists (OpAck :: ops ++ ops')%list. split.
    + rewrite E', E. cbn. now rewrite <- !app_assoc.
    + change (OpAck :: ops ++ ops')%list with ([OpAck] ++ ops ++ ops')%list.
      rewrite !acks_app, (acks_none ops F), N'. reflexivity.
Qed.

Lemma consumer_valid_queue_witness :
  fst (start_consumer ∅ [Encodes (PDict jane_t1); Encodes (PDict jane_deleted)] (idle ∅))
    = Ok tt /\
  exists ops,
    trace (snd (start_consumer ∅ [Encodes (PDict jane_t1); Encodes (PDict jane_deleted)]
                  (idle ∅))) = (trace (idle ∅) ++ ops)%list /\
    acks ops = length [Encodes (PDict jane_t1); Encodes (PDict jane_deleted)].
Proof.
  apply (consumer_valid_queue ∅ [Encodes (PDict jane_t1); Encodes (PDict jane_deleted)]
           (idle ∅)).
  repeat constructor.
  - exists jane_t1. split; [reflexivity|].
    apply (valid_upsert jane_t1 1 "Jane" 40 "flu" "2026-03-01T08:00:00" t1).
    + exists (PStr "hospital_b"). reflexivity.
    + split; vm_compute; reflexivity.
    + reflexivity.
  - exists jane_deleted. split; [reflexivity|].
    apply (valid_delete jane_deleted 1).
    + exists (PStr "hospital_b"). reflexivity.
    + split; reflexivity.
Defined.

(** ** The callback as a function of the committed table *)

Lemma valid_has_effect (environ : gmap string string) d :
  valid_event d -> exists eff, has_effect environ d eff.
Proof.
  intros Hv.
  assert (exists v, dict_get d "origin" = Some v) as [v Ho].
  { destruct Hv as [? ? ? ? ? ? [v Hv] _ _|? [v Hv] _|[v Hv] _]; eauto. }
  destruct (py_eq_str v (HOSPITAL_ID environ)) eqn:Hown.
  { exists Nop. eapply effect_own; eauto. }
  destruct Hv as [z n a g s t _ Hu Ha|z _ Hd|_ Hd].
  - eexists. eapply effect_upsert; eauto.
  - eexists. eapply effect_delete; eauto.
  - eexists. eapply effect_delete_all; eauto.
Qed.

Lemma callback_has_effect (environ : gmap string string) d eff (w : world) :
  has_effect environ d eff ->
  fst (callback environ (Encodes (PDict d)) w) = Ok tt /\
  db (snd (callback environ (Encodes (PDict d)) w)) = run_effect eff (db w).
Proof.
  intros [v Ho Hv|v z n a g s t Ho Hv Hu Ha|v z Ho Hv Hd|v Ho Hv Hd]; cbn [run_effect].
  - now rewrite (callback_own environ d v w Ho Hv).
  - destruct (db w !! z) as [r|] eqn:Hz.
    + now rewrite (callback_upsert_present environ d v z _ _ _ s t w r Ho Hv Hu Hz).
    + now rewrite (callback_upsert_absent environ d v z n a g s t w Ho Hv Hu Ha Hz).
  - destruct (db w !! z) as [r|] eqn:Hz.
    + now rewrite (callback_delete_present environ d v z w r Ho Hv Hd Hz).
    + rewrite (callback_delete_absent environ d v z w Ho Hv Hd Hz). cbn.
      split; [reflexivity|]. symmetry. now apply delete_id.
  - now rewrite (callback_delete_all environ d v w Ho Hv Hd).
Qed.

(** A queue of valid events, as the list of their effects. *)
Lemma start_consumer_effects (environ : gmap string string) queue :
  Forall valid_body queue ->
  exists effs,
    Forall2 (fun b eff => exists d, b = Encodes (PDict d) /\ has_effect environ d eff)
            queue effs /\
    forall w,
      fst (start_consumer environ queue w) = Ok tt /\
      db (snd (start_consumer environ queue w)) = run_effects effs (db w).
Proof.
  intros Hq. unfold start_consumer.
  induction Hq as [|b queue [d [-> Hd]] _ [effs [HF IH]]].
  - exists []. split; [constructor|]. intros w. split; reflexivity.
  - destruct (valid_has_effect environ d Hd) as [eff He].
    exists (eff :: effs). split; [constructor; eauto|].
    intros w. cbn [start_consuming]. unfold on_message.
    cbv beta iota zeta delta [bind log].
    set (w0 := mk_world (db w) (txn w) (heap w) (clock w) (exchange w) (broker_up w)
                (trace w ++ [OpAck])).
    destruct (callback_has_effect environ d eff w0 He) as [Hok Hdb].
    destruct (callback environ (Encodes (PDict d)) w0) as [r w1]; cbn in Hok, Hdb; subst r.
    destruct (IH w1) as [Hfst Hrun]. split; [assumption|].
    rewrite Hrun, Hdb. reflexivity.
Qed.

Lemma run_effect_lookup eff m k :
  run_effect eff m !! k = step_entry eff k (m !! k).
Proof.
  destruct eff as [|z r|z|]; cbn.
  - reflexivity.
  - destruct (decide (z = k)) as [->|Hne].
    + destruct (m !! k) eqn:E; [assumption|]. apply lookup_insert_eq.
    + destruct (m !! z); [reflexivity|]. now apply lookup_insert_ne.
  - destruct (decide (z = k)) as [->|Hne].
    + apply lookup_delete_eq.
    + now apply lookup_delete_ne.
  - apply lookup_empty.
Qed.

Lemma run_effects_lookup effs : forall m k,
  run_effects effs m !! k = foldl (fun o eff => step_entry eff k o) (m !! k) effs.
Proof.
  unfold run_effects. induction effs as [|eff effs IH]; intros m k; cbn; [reflexivity|].
  now rewrite IH, run_effect_lookup.
Qed.

(** On one entry a sequence of effects is the identity, a fill-if-empty or a
    constant. *)
Lemma entry_steps_shape effs k :
  let F := fun o => foldl (fun o eff => step_entry eff k o) o effs in
  (forall o, F o = o) \/
  (exists r, forall o, F o = match o with Some _ => o | None => Some r end) \/
  (exists c, forall o, F o = c).
Proof.
  cbv zeta. induction effs as [|eff effs IH] using rev_ind; [now left|].
  setoid_rewrite foldl_snoc.
  destruct eff as [|z r|z|]; cbn [step_entry].
  - assumption.
  - destruct (decide (z = k)) as [_|_]; [|assumption].
    destruct IH as [Hi|[[r' Hf]|[c Hc]]].
    + right; left. exists r. intros o. now rewrite Hi.
    + right; left. exists r'. intros o. rewrite Hf. now destruct o.
    + right; right. exists (match c with Some _ => c | None => Some r end).
      intros o. now rewrite Hc.
  - destruct (decide (z = k)) as [_|_]; [|assumption].
    right; right. now exists None.
  - right; right. now exists None.
Qed.

Lemma run_effects_twice effs m : run_effects effs (run_effects effs m) = run_effects effs m.
Proof.
  apply map_eq. intros k. rewrite !run_effects_lookup.
  destruct (entry_steps_shape effs k) as [Hi|[[r Hf]|[c Hc]]].
  - now rewrite !Hi.
  - rewrite !Hf. now destruct (m !! k).
  - now rewrite !Hc.
Qed.

(** X9. Redelivery of a whole batch: a queue of valid events consumed a
    second time, after it was consumed once, leaves the committed table as
    the first pass left it. *)
Theorem queue_redelivery_harmless (environ : gmap string string) queue (w : world) :
  Forall valid_body queue ->
  let once := start_consumer environ queue w in
  let twice := start_consumer environ queue (snd once) in
  fst once = Ok tt /\ fst twice = Ok tt /\ db (snd twice) = db (snd once).
Proof.
  intros Hq. destruct (start_consumer_effects environ queue Hq) as [effs [_ H]].
  cbv zeta. destruct (H w) as [Hok1 Hdb1].
  destruct (H (snd (start_consumer environ queue w))) as [Hok2 Hdb2].
  repeat split; try assumption. rewrite Hdb2, Hdb1. apply run_effects_twice.
Qed.

Lemma queue_redelivery_harmless_witness :
  let once := start_consumer ∅ [Encodes (PDict jane_deleted); Encodes (PDict jane_t2)]
                (idle {[1 := jane_row_t1]}) in
  let twice := start_consumer ∅ [Encodes (PDict jane_deleted); Encodes (PDict jane_t2)]
                 (snd once) in
  fst once = Ok tt /\ fst twice = Ok tt /\ db (snd twice) = db (snd once).
Proof.
  apply (queue_redelivery_harmless ∅ [Encodes (PDict jane_deleted); Encodes (PDict jane_t2)]
           (idle {[1 := jane_row_t1]})).
  repeat constructor.
  - exists jane_deleted. split; [reflexivity|].
    apply (valid_delete jane_deleted 1).
    + exists (PStr "hospital_b"). reflexivity.
    + split; reflexivity.
  - exists jane_t2. split; [reflexivity|].
    apply (valid_upsert jane_t2 1 "Jane" 41 "pneumonia" "2026-03-02T08:00:00" t2).
    + exists (PStr "hospital_b"). reflexivity.
    + split; vm_compute; reflexivity.
    + reflexivity.
Defined.

(** ** The id SQLite assigns *)

Lemma foldr_max_ge (k : Z) (ks : list Z) x :
  x ∈ k :: ks -> x <= foldr Z.max k ks.
Proof.
  induction ks as [|y ks IH]; cbn.
  - intros Hx. apply list_elem_of_singleton in Hx. lia.
  - intros Hx. apply elem_of_cons in Hx as [->|Hx].
    + assert (k <= foldr Z.max k ks) by (apply IH; left). lia.
    + apply elem_of_cons in Hx as [->|Hx]; [lia|].
      assert (x <= foldr Z.max k ks) by (apply IH; now right). lia.
Qed.

(** The id given to a new row is above every id of the table. *)
Lemma next_rowid_above (t : gmap Z Patient) z k :
  next_rowid t = Ok z -> is_Some (t !! k) -> k < z.
Proof.
  unfold next_rowid. intros Hz [r Hk].
  assert (k ∈ (map_to_list t).*1) as Hin.
  { apply list_elem_of_fmap. exists (k, r). split; [reflexivity|].
    now apply elem_of_map_to_list. }
  destruct ((map_to_list t).*1) as [|k0 ks]; [now apply elem_of_nil in Hin|].
  destruct (is_int64 _); [|discriminate]. injection Hz as <-.
  pose proof (foldr_max_ge k0 ks k Hin). lia.
Qed.

Lemma next_rowid_fresh (t : gmap Z Patient) z :
  next_rowid t = Ok z -> t !! z = None.
Proof.
  intros Hz. destruct (t !! z) as [r|] eqn:E; [|reflexivity].
  pose proof (next_rowid_above t z z Hz (ex_intro _ r E)). lia.
Qed.

(** ** What the writing handlers do *)

(** As [exec_handler], with the reading of the request left folded. *)
Ltac exec_request :=
  cbv beta iota zeta delta
    [handle PatientCollection_post PatientCollection_delete PatientItem_put
     PatientItem_delete PatientItem_get patient_data_of
     record_event send_to_broker json_serializable forallb andb
     with_app_context new_session request_json py_str
     catches_value_type catches_integrity negb
     bind ret raise lift out_of_model log get_world set_txn set_db set_heap set_exchange
     subscript py_eq_str query_get setattr getattr deref new_Patient session_add
     session_commit session_delete session_remove session_rollback query_delete
     flush flush_from flush_obj try_except
     py_fromisoformat py_isoformat process_datetime driver_bind bind_all py_is_none orb
     store_string store_integer store_datetime
     obj_of_row obj_set obj_get obj_set_state identity_lookup bulk_deleted rollback_obj
     db txn heap clock exchange broker_up trace is_json json
     o_state o_id o_name o_age o_diagnosis_TEXT o_last_update
     name age diagnosis_TEXT last_update fst snd];
  cbn [lookup list_lookup insert list_insert app length fmap list_fmap].

Lemma fields_present d vn va vg :
  dict_get d "name" = Some vn -> dict_get d "age" = Some va ->
  dict_get d "diagnosis_TEXT" = Some vg ->
  py_all_in fields (PDict d) = Ok true.
Proof.
  intros Hn Ha Hg. unfold fields. cbn [py_all_in py_in]. rewrite Hn, Ha, Hg.
  reflexivity.
Qed.

Section Writing.

Variable environ : gmap string string.

(** The writing handlers commit before they publish: the answer and the
    exchange depend on the broker, the committed table does not. *)
Lemma post_creates req d n va a g z (w : world) :
  is_json req = true -> json req = Some (PDict d) ->
  dict_get d "name" = Some (PStr n) ->
  dict_get d "age" = Some va -> py_int va = Ok a -> is_int64 a = true ->
  dict_get d "diagnosis_TEXT" = Some (PStr g) ->
  next_rowid (db w) = Ok z ->
  PatientCollection_post environ req w =
  ((if broker_up w then Ok ("Patient " ++ n ++ " created successfully", 201)
    else Raise AMQPConnectionError),
   mk_world (<[z := mk_Patient n a g (clock w)]> (db w))
            (<[z := mk_Patient n a g (clock w)]> (db w)) [] (clock w)
            (if broker_up w
             then exchange w ++ [PDict (event_of "add_or_update" z n a g (isoformat (clock w))
                                                 (HOSPITAL_ID environ))]
             else exchange w)
            (broker_up w) (trace w ++ [OpAdd; OpCommit; OpRemove])).
Proof.
  intros Hj Hd Hn Ha Hint Ha64 Hg Hz.
  pose proof (next_rowid_fresh _ _ Hz) as Hfresh.
  pose proof (next_rowid_int64 _ _ Hz) as Hz64.
  pose proof (fields_present d _ _ _ Hn Ha Hg) as Hall.
  destruct w as [dbw t h c x bk tr]. destruct req as [ij js]. cbn in Hj, Hd, Hz, Hfresh. subst ij js.
  exec_request. rewrite Hall. exec_request. rewrite Hn, Ha. exec_request.
  rewrite Hint. exec_request. rewrite Hg. exec_request. rewrite Ha64. exec_request.
  rewrite Hz. exec_request. rewrite Hfresh. exec_request.
  destruct bk; exec_request; unfold event_of; now rewrite <- !app_assoc.
Qed.

Lemma put_updates i req d n va a g r (w : world) :
  is_int64 i = true -> db w !! i = Some r ->
  is_json req = true -> json req = Some (PDict d) ->
  dict_get d "name" = Some (PStr n) ->
  dict_get d "age" = Some va -> py_int va = Ok a -> is_int64 a = true ->
  dict_get d "diagnosis_TEXT" = Some (PStr g) ->
  PatientItem_put environ i req w =
  ((if broker_up w then Ok ("Patient " ++ n ++ " updated successfully", 200)
    else Raise AMQPConnectionError),
   mk_world (<[i := mk_Patient n a g (clock w)]> (db w))
            (<[i := mk_Patient n a g (clock w)]> (db w)) [] (clock w)
            (if broker_up w
             then exchange w ++ [PDict (event_of "add_or_update" i n a g (isoformat (clock w))
                                                 (HOSPITAL_ID environ))]
             else exchange w)
            (broker_up w) (trace w ++ [OpQueryGet (PInt i); OpCommit; OpRemove])).
Proof.
  intros Hi64 Hi Hj Hd Hn Ha Hint Ha64 Hg.
  pose proof (fields_present d _ _ _ Hn Ha Hg) as Hall.
  destruct w as [dbw t h c x bk tr]. destruct req as [ij js]. cbn in Hj, Hd, Hi. subst ij js.
  exec_request. rewrite Hi64. exec_request. rewrite Hi. exec_request.
  rewrite Hall. exec_request. rewrite Hn. exec_request. rewrite Ha. exec_request.
  rewrite Hint. exec_request. rewrite Hg. exec_request.
  rewrite Ha64. exec_request. rewrite Hi64. exec_request.
  destruct bk; exec_request; unfold event_of; now rewrite <- !app_assoc.
Qed.

Lemma item_delete_removes i r (w : world) :
  is_int64 i = true -> db w !! i = Some r ->
  PatientItem_delete environ i w =
  ((if broker_up w then Ok ("Patient " ++ name r ++ " deleted successfully", 200)
    else Raise AMQPConnectionError),
   mk_world (delete i (db w)) (delete i (db w)) [] (clock w)
            (if broker_up w
             then exchange w ++ [PDict (event_of "delete" i (name r) (age r) (diagnosis_TEXT r)
                                                 (isoformat (last_update r))
                                                 (HOSPITAL_ID environ))]
             else exchange w)
            (broker_up w) (trace w ++ [OpQueryGet (PInt i); OpDelete; OpCommit; OpRemove])).
Proof.
  intros Hi64 Hi.
  destruct w as [dbw t h c x bk tr]. destruct r as [n a g lu]. cbn in Hi.
  exec_request. rewrite Hi64. exec_request. rewrite Hi. exec_request.
  rewrite Hi64. exec_request.
  destruct bk; exec_request; unfold event_of; now rewrite <- !app_assoc.
Qed.

Lemma collection_delete_clears (w : world) :
  PatientCollection_delete environ w =
  ((if broker_up w
    then Ok ("Deleted " ++ pretty (Z.of_nat (size (db w))) ++ " patients", 200)
    else Raise AMQPConnectionError),
   mk_world ∅ ∅ [] (clock w)
            (if broker_up w
             then exchange w ++ [PDict [("action", PStr "delete_all"); ("id", PNone);
                                        ("name", PNone); ("age", PNone);
                                        ("diagnosis_TEXT", PNone); ("last_update", PNone);
                                        ("origin", PStr (HOSPITAL_ID environ))]]
             else exchange w)
            (broker_up w) (trace w ++ [OpQueryDelete; OpCommit; OpRemove])).
Proof.
  destruct w as [dbw t h c x bk tr]. exec_request.
  destruct bk; exec_request; now rewrite <- !app_assoc.
Qed.

(** X17. For an id without a row, [PUT] (whatever the request), [DELETE] and
    [GET /patients/<id>] answer "Patient not found", 404: the session looks
    the id up and is torn down, nothing is committed or published. *)
Theorem missing_record_404 i (w : world) :
  is_int64 i = true -> db w !! i = None ->
  let w' := mk_world (db w) (db w) [] (clock w) (exchange w) (broker_up w)
              (trace w ++ [OpQueryGet (PInt i); OpRemove]) in
  (forall req, PatientItem_put environ i req w = (Ok ("Patient not found", 404), w')) /\
  PatientItem_delete environ i w = (Ok ("Patient not found", 404), w') /\
  PatientItem_get i w = (Ok (inl ("Patient not found", 404)), w').
Proof.
  intros Hi64 Hi. destruct w as [dbw t h c x bk tr]. cbn in Hi. cbv zeta.
  split; [intros req; destruct req as [ij js]|split];
    exec_request; rewrite Hi64; exec_request; rewrite Hi; exec_request;
    now rewrite <- !app_assoc.
Qed.

(** X12. [POST /patients] with a null name, an age [int()] accepts that
    fits 64 bits, and a diagnosis the driver can bind: the INSERT fails the
    NOT NULL constraint at commit, the handler rolls the session back and
    answers 400; nothing is committed or published. *)
Theorem post_integrity_error_rolls_back req d va a vg (w : world) :
  is_json req = true -> json req = Some (PDict d) ->
  dict_get d "name" = Some PNone ->
  dict_get d "age" = Some va -> py_int va = Ok a -> is_int64 a = true ->
  dict_get d "diagnosis_TEXT" = Some vg -> driver_bind vg = Ok tt ->
  PatientCollection_post environ req w =
  (Ok ("Database integrity error - possible duplicate entry", 400),
   mk_world (db w) (db w) [] (clock w) (exchange w) (broker_up w)
            (trace w ++ [OpAdd; OpCommit; OpRollback; OpRemove])).
Proof.
  intros Hj Hd Hn Ha Hint Ha64 Hg Hbind.
  pose proof (fields_present d _ _ _ Hn Ha Hg) as Hall.
  destruct w as [dbw t h c x bk tr]. destruct req as [ij js]. cbn in Hj, Hd. subst ij js.
  exec_request. rewrite Hall. exec_request. rewrite Hn, Ha. exec_request.
  rewrite Hint. exec_request. rewrite Hg. exec_request. rewrite Ha64. exec_request.
  destruct vg as [|b|z|s|l|dd|dt]; cbn [driver_bind] in Hbind;
    try discriminate Hbind; exec_request;
    [ | | destruct (is_int64 z); [|discriminate Hbind]; exec_request | ];
    now rewrite <- !app_assoc.
Qed.

End Writing.

(** ** Calls that fail *)

Ltac outcome_leaf :=
  cbn [fst snd succeeded Z.eqb Pos.eqb orb];
  first
    [ exact I
    | eexists; reflexivity
    | split; [ reflexivity | first [ reflexivity | right; reflexivity | left; reflexivity ] ] ].

(** X18. A call of a writing handler that answers 200 or 201 has published
    exactly one event; a call that answers another status has committed
    nothing and published nothing; a call that raises has published nothing,
    and has committed nothing unless the exception is the connection error
    of the broker, which comes after the commit. *)
Theorem call_outcome_and_effects (environ : gmap string string) (c : api_call) (w : world) :
  let r := handle environ c w in
  match fst r with
  | Ok answer =>
      if succeeded answer
      then exists e, exchange (snd r) = (exchange w ++ [e])%list
      else db (snd r) = db w /\ exchange (snd r) = exchange w
  | Raise e =>
      exchange (snd r) = exchange w /\ (e = AMQPConnectionError \/ db (snd r) = db w)
  | OutOfModel => True
  end.
Proof.
  destruct w as [d t h ck x bk tr].
  destruct c as [[ij js]| |i [ij js]|i]; exec_handler;
    repeat (crack; exec_handler); outcome_leaf.
Qed.

(** X13. [POST /patients] with a JSON body that is not an object: for null,
    a boolean or a number the membership test raises [TypeError], which
    nothing catches; for a text or an array the answer is a 400. *)
Theorem post_rejects_non_object_body (environ : gmap string string) v (w : world) :
  let r := PatientCollection_post environ (mk_request true (Some v)) w in
  if scalar_body v then fst r = Raise TypeError
  else if text_or_array_body v then exists msg, fst r = Ok (msg, 400)
  else True.
Proof.
  destruct w as [d t h ck x bk tr]. cbv zeta.
  destruct v; cbn [scalar_body text_or_array_body]; try exact I; exec_handler;
    try reflexivity;
    repeat (crack; exec_handler); eexists; reflexivity.
Qed.

(** ** What the reading handlers return *)

Lemma identity_lookup_objs z done : forall a,
  z ∉ done.*1 -> identity_lookup z (objs done) a = None.
Proof.
  induction done as [|[z' r] done IH]; intros a Hz; [reflexivity|].
  cbn in Hz |- *. apply not_elem_of_cons in Hz as [Hne Hz].
  destruct (z' =? z) eqn:E; [apply Z.eqb_eq in E; congruence|]. now apply IH.
Qed.

Lemma load_row_new zr (done : list (Z * Patient)) d t c x bk tr :
  zr.1 ∉ done.*1 ->
  load_row zr (mk_world d t (objs done) c x bk tr) =
  (Ok (length done), mk_world d t (objs (done ++ [zr])) c x bk tr).
Proof.
  intros Hz. unfold load_row.
  cbv beta iota zeta delta
    [bind get_world set_heap ret heap db txn clock exchange broker_up trace].
  rewrite (identity_lookup_objs _ _ 0%nat Hz).
  unfold objs. now rewrite fmap_app, length_fmap.
Qed.

Lemma load_rows_new (rows : list (Z * Patient)) : forall (done : list (Z * Patient)) d t c x bk tr,
  NoDup ((done ++ rows)%list).*1 ->
  load_rows rows (mk_world d t (objs done) c x bk tr) =
  (Ok (seq (length done) (length rows)), mk_world d t (objs (done ++ rows)%list) c x bk tr).
Proof.
  induction rows as [|zr rows IH]; intros done d t c x bk tr Hnd.
  - cbn. now rewrite app_nil_r.
  - cbn [load_rows]. unfold bind at 1.
    rewrite load_row_new.
    + unfold bind at 1. rewrite IH.
      * cbn. rewrite <- app_assoc, length_app. cbn.
        now replace (length done + 1)%nat with (S (length done)) by lia.
      * now rewrite <- app_assoc.
    + rewrite fmap_app in Hnd. apply NoDup_app in Hnd as (_ & Hdis & _).
      intros Hin. apply (Hdis _ Hin). cbn. left.
Qed.

Lemma NoDup_rows_by_id (t : gmap Z Patient) : NoDup (rows_by_id t).*1.
Proof.
  unfold rows_by_id. rewrite (merge_sort_Permutation id_le (map_to_list t)).
  apply NoDup_fst_map_to_list.
Qed.

Lemma query_all_new d c x bk tr :
  query_all (mk_world d d [] c x bk tr) =
  (Ok (seq 0 (length (rows_by_id d))), mk_world d d (objs (rows_by_id d)) c x bk tr).
Proof.
  unfold query_all, flush.
  cbv beta iota zeta delta [bind get_world ret heap txn flush_from length].
  apply (load_rows_new (rows_by_id d) [] d d c x bk tr). apply NoDup_rows_by_id.
Qed.

Lemma patient_data_of_row (pre : list (Z * Patient)) zr post ts d t c x bk tr :
  strftime (last_update zr.2) = Some ts ->
  patient_data_of (length pre) (mk_world d t (objs (pre ++ zr :: post)%list) c x bk tr) =
  (Ok (shown zr.2 ts), mk_world d t (objs (pre ++ zr :: post)%list) c x bk tr).
Proof.
  intros Hts. unfold patient_data_of, getattr, deref.
  assert (objs (pre ++ zr :: post)%list !! length pre = Some (obj_of_row zr.1 zr.2)) as Hl.
  { unfold objs. rewrite fmap_app. cbn.
    rewrite <- (length_fmap (fun zr => obj_of_row zr.1 zr.2) pre).
    apply list_lookup_middle. reflexivity. }
  cbv beta iota zeta delta [bind ret lift heap].
  repeat (rewrite Hl;
          cbv beta iota zeta delta
            [obj_get obj_of_row o_name o_age o_diagnosis_TEXT o_last_update py_strftime]).
  rewrite Hts. reflexivity.
Qed.

Lemma collect_patients_rows (post : list (Z * Patient)) :
  forall (pre : list (Z * Patient)) acc l d t c x bk tr,
  Forall2 (fun zr y => show_row zr = Some y) post l ->
  collect_patients (seq (length pre) (length post)) acc
    (mk_world d t (objs (pre ++ post)%list) c x bk tr) =
  (Ok (acc ++ l)%list, mk_world d t (objs (pre ++ post)%list) c x bk tr).
Proof.
  induction post as [|zr post IH]; intros pre acc l d t c x bk tr Hl.
  - inversion Hl; subst. cbn [length seq collect_patients]. unfold ret.
    now rewrite (app_nil_r acc).
  - inversion Hl as [|? y ? l' Hy Hl']; subst.
    unfold show_row in Hy.
    destruct (strftime (last_update zr.2)) as [ts|] eqn:Hts; [|discriminate].
    injection Hy as <-.
    cbn [length seq collect_patients]. unfold bind at 1.
    rewrite (patient_data_of_row pre zr post ts) by assumption.
    specialize (IH (pre ++ [zr])%list (acc ++ [shown zr.2 ts])%list l' d t c x bk tr Hl').
    rewrite length_app in IH. cbn [length] in IH.
    replace (length pre + 1)%nat with (S (length pre)) in IH by lia.
    rewrite <- !app_assoc in IH. exact IH.
Qed.

Lemma collection_get_lists l (w : world) :
  mapM show_row (rows_by_id (db w)) = Some l ->
  PatientCollection_get w =
  (Ok (PList l),
   mk_world (db w) (db w) [] (clock w) (exchange w) (broker_up w) (trace w ++ [OpRemove])).
Proof.
  intros Hl. destruct w as [d t h c x bk tr]. cbn [db clock exchange broker_up trace] in *.
  unfold PatientCollection_get, with_app_context, new_session.
  cbn [db clock exchange broker_up trace]. unfold bind at 1. rewrite query_all_new.
  unfold bind at 1.
  apply mapM_Some in Hl.
  pose proof (collect_patients_rows (rows_by_id d) [] [] l d d c x bk tr Hl) as Hc.
  cbn [app length] in Hc. rewrite Hc. reflexivity.
Qed.

Lemma shows_all (rows : list (Z * Patient)) :
  Forall (fun zr => 1000 <= year (last_update zr.2)) rows ->
  exists l, mapM show_row rows = Some l.
Proof.
  intros Hy. apply (mapM_is_Some show_row rows).
  eapply Forall_impl; [exact Hy|]. intros zr Hzr. cbn. unfold show_row, strftime.
  apply Z.leb_le in Hzr. rewrite Hzr. eauto.
Qed.

Lemma rows_by_id_length (t : gmap Z Patient) : length (rows_by_id t) = size t.
Proof.
  unfold rows_by_id. rewrite (merge_sort_Permutation id_le (map_to_list t)).
  apply length_map_to_list.
Qed.

Lemma rows_by_id_lookup (t : gmap Z Patient) zr :
  zr ∈ rows_by_id t -> t !! zr.1 = Some zr.2.
Proof.
  unfold rows_by_id. rewrite (merge_sort_Permutation id_le (map_to_list t)).
  destruct zr as [z r]. apply elem_of_map_to_list.
Qed.

Lemma item_get_shows i r ts (w : world) :
  is_int64 i = true -> db w !! i = Some r ->
  strftime (last_update r) = Some ts ->
  PatientItem_get i w =
  (Ok (inr (shown r ts)),
   mk_world (db w) (db w) [] (clock w) (exchange w)
            (broker_up w) (trace w ++ [OpQueryGet (PInt i); OpRemove])).
Proof.
  intros Hi64 Hi Hts.
  destruct w as [dbw t h c x bk tr]. destruct r as [n a g lu]. cbn in Hi, Hts.
  exec_request. rewrite Hi64. exec_request. rewrite Hi. exec_request.
  unfold py_strftime. rewrite Hts. exec_request. unfold shown. cbn.
  now rewrite <- !app_assoc.
Qed.

(** ** From one node to another *)

Lemma event_of_upsert z n a g s t o :
  is_int64 z = true -> fromisoformat s = Some t ->
  upsert_event (event_of "add_or_update" z n a g s o) z (PStr n) (PInt a) (PStr g) s t.
Proof. intros Hz Hs. split; try reflexivity; assumption. Qed.

Lemma event_of_delete z n a g s o :
  is_int64 z = true -> delete_event (event_of "delete" z n a g s o) z.
Proof. intros Hz. split; try reflexivity; assumption. Qed.

Lemma foreign_origin (envA envB : gmap string string) :
  HOSPITAL_ID envA <> HOSPITAL_ID envB ->
  py_eq_str (PStr (HOSPITAL_ID envA)) (HOSPITAL_ID envB) = false.
Proof. intros H. cbn. now apply String.eqb_neq. Qed.

Section Replication.

Variables envA envB : gmap string string.
Hypothesis other_node : HOSPITAL_ID envA <> HOSPITAL_ID envB.

(** X23. A record created at one node reaches another: the event that
    [POST /patients] publishes, applied by the callback of a node with another
    identifier where the new id has no row, creates there the very row the
    first node committed (the timestamp written by [isoformat] is read back
    by [fromisoformat]). *)
Theorem created_record_replicates req d n va a g z (wA wB : world) :
  is_json req = true -> json req = Some (PDict d) ->
  dict_get d "name" = Some (PStr n) ->
  dict_get d "age" = Some va -> py_int va = Ok a -> is_int64 a = true ->
  dict_get d "diagnosis_TEXT" = Some (PStr g) ->
  next_rowid (db wA) = Ok z ->
  datetime_ok (clock wA) = true ->
  broker_up wA = true ->
  db wB !! z = None ->
  exists e,
    exchange (snd (PatientCollection_post envA req wA)) = (exchange wA ++ [e])%list /\
    db (snd (PatientCollection_post envA req wA)) !! z = Some (mk_Patient n a g (clock wA)) /\
    fst (callback envB (Encodes e) wB) = Ok tt /\
    db (snd (callback envB (Encodes e) wB)) = <[z := mk_Patient n a g (clock wA)]> (db wB).
Proof.
  intros Hj Hd Hn Ha Hint Ha64 Hg Hz Hck Hup HzB.
  rewrite (post_creates envA req d n va a g z wA Hj Hd Hn Ha Hint Ha64 Hg Hz), Hup.
  eexists. split; [reflexivity|]. split; [apply lookup_insert_eq|].
  erewrite callback_upsert_absent;
    [ split; reflexivity
    | reflexivity
    | now apply foreign_origin
    | apply event_of_upsert;
      [ exact (next_rowid_int64 _ _ Hz) | now apply fromisoformat_isoformat ]
    | assumption
    | assumption ].
Qed.

(** X24. An update does not reach a node that holds the record: the event
    that [PUT /patients/<id>] publishes, applied by the callback of a node
    with another identifier where the id has a row, leaves that node's
    committed table unchanged, while the first node holds the new values. *)
Theorem updated_record_not_replicated i req d n va a g rA rB (wA wB : world) :
  is_int64 i = true -> db wA !! i = Some rA ->
  is_json req = true -> json req = Some (PDict d) ->
  dict_get d "name" = Some (PStr n) ->
  dict_get d "age" = Some va -> py_int va = Ok a -> is_int64 a = true ->
  dict_get d "diagnosis_TEXT" = Some (PStr g) ->
  datetime_ok (clock wA) = true ->
  broker_up wA = true ->
  db wB !! i = Some rB ->
  exists e,
    exchange (snd (PatientItem_put envA i req wA)) = (exchange wA ++ [e])%list /\
    db (snd (PatientItem_put envA i req wA)) !! i = Some (mk_Patient n a g (clock wA)) /\
    fst (callback envB (Encodes e) wB) = Ok tt /\
    db (snd (callback envB (Encodes e) wB)) = db wB.
Proof.
  intros Hi64 Hi Hj Hd Hn Ha Hint Ha64 Hg Hck Hup HiB.
  rewrite (put_updates envA i req d n va a g rA wA Hi64 Hi Hj Hd Hn Ha Hint Ha64 Hg), Hup.
  eexists. split; [reflexivity|]. split; [apply lookup_insert_eq|].
  erewrite callback_upsert_present;
    [ split; reflexivity
    | reflexivity
    | now apply foreign_origin
    | apply event_of_upsert; [ assumption | now apply fromisoformat_isoformat ]
    | eassumption ].
Qed.

(** X25. A deletion reaches the other nodes: the event that
    [DELETE /patients/<id>] publishes, applied by the callback of a node with
    another identifier, removes the id there, whether or not it had a row. *)
Theorem deleted_record_replicates i rA (wA wB : world) :
  is_int64 i = true -> db wA !! i = Some rA ->
  broker_up wA = true ->
  exists e,
    exchange (snd (PatientItem_delete envA i wA)) = (exchange wA ++ [e])%list /\
    db (snd (PatientItem_delete envA i wA)) = delete i (db wA) /\
    fst (callback envB (Encodes e) wB) = Ok tt /\
    db (snd (callback envB (Encodes e) wB)) = delete i (db wB).
Proof.
  intros Hi64 Hi Hup.
  rewrite (item_delete_removes envA i rA wA Hi64 Hi), Hup.
  eexists. split; [reflexivity|]. split; [reflexivity|].
  destruct (db wB !! i) as [rB|] eqn:HiB.
  - erewrite callback_delete_present;
      [ split; reflexivity | reflexivity | now apply foreign_origin
      | now apply event_of_delete | eassumption ].
  - erewrite callback_delete_absent;
      [ split; [reflexivity | cbn; symmetry; now apply delete_id]
      | reflexivity | now apply foreign_origin
      | now apply event_of_delete | assumption ].
Qed.

(** X26. [DELETE /patients] empties the table of the node, and the event it
    publishes empties the table of every node with another identifier that
    applies it. *)
Theorem clear_all_replicates (wA wB : world) :
  broker_up wA = true ->
  exists e,
    exchange (snd (PatientCollection_delete envA wA)) = (exchange wA ++ [e])%list /\
    db (snd (PatientCollection_delete envA wA)) = ∅ /\
    fst (callback envB (Encodes e) wB) = Ok tt /\
    db (snd (callback envB (Encodes e) wB)) = ∅.
Proof.
  intros Hup. rewrite (collection_delete_clears envA wA), Hup.
  eexists. split; [reflexivity|]. split; [reflexivity|].
  erewrite callback_delete_all;
    [ split; reflexivity | reflexivity | now apply foreign_origin | reflexivity ].
Qed.

End Replication.

(** X27. Two nodes with the same identifier do not replicate to each other:
    every event a handler of one publishes is discarded by the callback of
    the other as an echo of its own, with its world unchanged. *)
Theorem same_identifier_nodes_discard (envA envB : gmap string string) (c : api_call)
    (wA wB : world) :
  HOSPITAL_ID envA = HOSPITAL_ID envB ->
  exists new,
    exchange (snd (handle envA c wA)) = (exchange wA ++ new)%list /\
    Forall (fun e => callback envB (Encodes e) wB = (Ok tt, wB)) new.
Proof.
  intros Hsame. destruct (handle_publishes envA c wA) as [new [E F]].
  exists new. split; [assumption|].
  eapply Forall_impl; [exact F|]. intros e [_ Ho].
  destruct e as [| | | | |d|]; try contradiction. cbn in Ho.
  apply (callback_own envB d _ wB Ho). cbn. rewrite Hsame. apply String.eqb_refl.
Qed.

(** ** Events for different records *)

Lemma step_untouched eff k o : ~ touches eff k -> step_entry eff k o = o.
Proof.
  destruct eff as [|z r|z|]; cbn; intros H; try reflexivity.
  - destruct (decide (z = k)); [contradiction|reflexivity].
  - destruct (decide (z = k)); [contradiction|reflexivity].
  - now contradiction H.
Qed.

Lemma touches_dec eff k : touches eff k \/ ~ touches eff k.
Proof.
  destruct eff as [|z r|z|]; cbn; try tauto; destruct (decide (z = k)); tauto.
Qed.

Lemma independent_effects_commute e1 e2 m :
  independent e1 e2 ->
  run_effect e2 (run_effect e1 m) = run_effect e1 (run_effect e2 m).
Proof.
  intros Hind. apply map_eq. intros k. rewrite !run_effect_lookup.
  destruct (touches_dec e1 k) as [H1|H1].
  - assert (~ touches e2 k) as H2 by (intros H2; now apply (Hind k)).
    now rewrite !(step_untouched e2 k) by assumption.
  - now rewrite !(step_untouched e1 k) by assumption.
Qed.

Lemma consume_two (environ : gmap string string) d1 d2 e1 e2 (w : world) :
  has_effect environ d1 e1 -> has_effect environ d2 e2 ->
  fst (start_consumer environ [Encodes (PDict d1); Encodes (PDict d2)] w) = Ok tt /\
  db (snd (start_consumer environ [Encodes (PDict d1); Encodes (PDict d2)] w)) =
    run_effect e2 (run_effect e1 (db w)).
Proof.
  intros H1 H2. unfold start_consumer. cbn [start_consuming]. unfold on_message.
  cbv beta iota zeta delta [bind log ret].
  set (w0 := mk_world (db w) (txn w) (heap w) (clock w) (exchange w) (broker_up w)
              (trace w ++ [OpAck])).
  destruct (callback_has_effect environ d1 e1 w0 H1) as [Hok1 Hdb1].
  destruct (callback environ (Encodes (PDict d1)) w0) as [r1 w1]; cbn in Hok1, Hdb1; subst r1.
  set (w1' := mk_world (db w1) (txn w1) (heap w1) (clock w1) (exchange w1)
                (broker_up w1) (trace w1 ++ [OpAck])).
  destruct (callback_has_effect environ d2 e2 w1' H2) as [Hok2 Hdb2].
  destruct (callback environ (Encodes (PDict d2)) w1') as [r2 w2]; cbn in Hok2, Hdb2; subst r2.
  split; [reflexivity|]. cbn. now rewrite Hdb2, Hdb1.
Qed.

(** X10. Events that touch different records commute: two valid events with
    independent effects (an upsert or a delete each, for different ids; or
    one of them an echo of the node itself) leave the same committed table in
    either order of delivery. *)
Theorem events_of_different_records_commute (environ : gmap string string) d1 d2 e1 e2 (w : world) :
  has_effect environ d1 e1 -> has_effect environ d2 e2 -> independent e1 e2 ->
  db (snd (start_consumer environ [Encodes (PDict d1); Encodes (PDict d2)] w)) =
  db (snd (start_consumer environ [Encodes (PDict d2); Encodes (PDict d1)] w)).
Proof.
  intros H1 H2 Hind.
  destruct (consume_two environ d1 d2 e1 e2 w H1 H2) as [_ ->].
  destruct (consume_two environ d2 d1 e2 e1 w H2 H1) as [_ ->].
  now apply independent_effects_commute.
Qed.

(** ** The writing handlers, as their callers see them *)

(** X11. [POST /patients] with a JSON object carrying a text name, an age
    [int()] accepts and a text diagnosis, the broker being reachable,
    answers 201 and commits one new row with those values and the time of
    the call, under an id above every id of the table (so no record is
    overwritten), and publishes the [add_or_update] event of that row. *)
Theorem post_creates_record
    (environ : gmap string string) req d n va a g z (w : world) :
  is_json req = true -> json req = Some (PDict d) ->
  dict_get d "name" = Some (PStr n) ->
  dict_get d "age" = Some va -> py_int va = Ok a -> is_int64 a = true ->
  dict_get d "diagnosis_TEXT" = Some (PStr g) ->
  next_rowid (db w) = Ok z ->
  broker_up w = true ->
  fst (PatientCollection_post environ req w) =
    Ok ("Patient " ++ n ++ " created successfully", 201) /\
  (forall k, is_Some (db w !! k) -> k < z) /\
  db (snd (PatientCollection_post environ req w)) =
    <[z := mk_Patient n a g (clock w)]> (db w) /\
  exchange (snd (PatientCollection_post environ req w)) =
    (exchange w ++ [PDict (event_of "add_or_update" z n a g (isoformat (clock w))
                                    (HOSPITAL_ID environ))])%list.
Proof.
  intros Hj Hd Hn Ha Hint Ha64 Hg Hz Hup.
  rewrite (post_creates environ req d n va a g z w Hj Hd Hn Ha Hint Ha64 Hg Hz), Hup.
  split; [reflexivity|]. split; [|split; reflexivity].
  intros k Hk. exact (next_rowid_above (db w) z k Hz Hk).
Qed.

Lemma post_creates_record_witness :
  fst (PatientCollection_post ∅ jane_request (idle {[1 := jane_row_t1; 7 := jane_row_t2]})) =
    Ok ("Patient " ++ "Jane" ++ " created successfully", 201) /\
  (forall k, is_Some (db (idle {[1 := jane_row_t1; 7 := jane_row_t2]}) !! k) -> k < 8) /\
  db (snd (PatientCollection_post ∅ jane_request
             (idle {[1 := jane_row_t1; 7 := jane_row_t2]}))) =
    <[8 := mk_Patient "Jane" 40 "flu" (clock (idle {[1 := jane_row_t1; 7 := jane_row_t2]}))]>
      (db (idle {[1 := jane_row_t1; 7 := jane_row_t2]})) /\
  exchange (snd (PatientCollection_post ∅ jane_request
                   (idle {[1 := jane_row_t1; 7 := jane_row_t2]}))) =
    (exchange (idle {[1 := jane_row_t1; 7 := jane_row_t2]}) ++
     [PDict (event_of "add_or_update" 8 "Jane" 40 "flu"
               (isoformat (clock (idle {[1 := jane_row_t1; 7 := jane_row_t2]})))
               (HOSPITAL_ID ∅))])%list.
Proof.
  apply (post_creates_record ∅ jane_request
           [("name", PStr "Jane"); ("age", PInt 40); ("diagnosis_TEXT", PStr "flu")]
           "Jane" (PInt 40) 40 "flu" 8 (idle {[1 := jane_row_t1; 7 := jane_row_t2]}));
    vm_compute; reflexivity.
Defined.

(** X14. [PUT /patients/<id>] for an id that has a row, with a JSON object
    carrying a text name, an age [int()] accepts and a text diagnosis, the
    broker being reachable, answers 200, commits the row with the new values
    and the time of the call under the same id, and publishes the
    [add_or_update] event of that row. *)
Theorem put_updates_record
    (environ : gmap string string) i req d n va a g r (w : world) :
  is_int64 i = true -> db w !! i = Some r ->
  is_json req = true -> json req = Some (PDict d) ->
  dict_get d "name" = Some (PStr n) ->
  dict_get d "age" = Some va -> py_int va = Ok a -> is_int64 a = true ->
  dict_get d "diagnosis_TEXT" = Some (PStr g) ->
  broker_up w = true ->
  fst (PatientItem_put environ i req w) =
    Ok ("Patient " ++ n ++ " updated successfully", 200) /\
  db (snd (PatientItem_put environ i req w)) = <[i := mk_Patient n a g (clock w)]> (db w) /\
  exchange (snd (PatientItem_put environ i req w)) =
    (exchange w ++ [PDict (event_of "add_or_update" i n a g (isoformat (clock w))
                                    (HOSPITAL_ID environ))])%list.
Proof.
  intros Hi64 Hi Hj Hd Hn Ha Hint Ha64 Hg Hup.
  rewrite (put_updates environ i req d n va a g r w Hi64 Hi Hj Hd Hn Ha Hint Ha64 Hg), Hup.
  repeat split.
Qed.

Lemma put_updates_record_witness :
  fst (PatientItem_put ∅ 1 jane_request (idle {[1 := jane_row_t2]})) =
    Ok ("Patient " ++ "Jane" ++ " updated successfully", 200) /\
  db (snd (PatientItem_put ∅ 1 jane_request (idle {[1 := jane_row_t2]}))) =
    <[1 := mk_Patient "Jane" 40 "flu" (clock (idle {[1 := jane_row_t2]}))]>
      (db (idle {[1 := jane_row_t2]})) /\
  exchange (snd (PatientItem_put ∅ 1 jane_request (idle {[1 := jane_row_t2]}))) =
    (exchange (idle {[1 := jane_row_t2]}) ++
     [PDict (event_of "add_or_update" 1 "Jane" 40 "flu"
               (isoformat (clock (idle {[1 := jane_row_t2]}))) (HOSPITAL_ID ∅))])%list.
Proof.
  apply (put_updates_record ∅ 1 jane_request
           [("name", PStr "Jane"); ("age", PInt 40); ("diagnosis_TEXT", PStr "flu")]
           "Jane" (PInt 40) 40 "flu" jane_row_t2 (idle {[1 := jane_row_t2]}));
    vm_compute; reflexivity.
Defined.

(** X15. [DELETE /patients/<id>] for an id that has a row, the broker being
    reachable, answers 200, commits the deletion of that row and of no
    other, and publishes a [delete] event carrying the id and the deleted
    row's values. *)
Theorem item_delete_removes_record (environ : gmap string string) i r (w : world) :
  is_int64 i = true -> db w !! i = Some r ->
  broker_up w = true ->
  fst (PatientItem_delete environ i w) =
    Ok ("Patient " ++ name r ++ " deleted successfully", 200) /\
  db (snd (PatientItem_delete environ i w)) = delete i (db w) /\
  exchange (snd (PatientItem_delete environ i w)) =
    (exchange w ++ [PDict (event_of "delete" i (name r) (age r) (diagnosis_TEXT r)
                                    (isoformat (last_update r)) (HOSPITAL_ID environ))])%list.
Proof.
  intros Hi64 Hi Hup. rewrite (item_delete_removes environ i r w Hi64 Hi), Hup.
  repeat split.
Qed.

Lemma item_delete_removes_record_witness :
  fst (PatientItem_delete ∅ 7 (idle {[1 := jane_row_t1; 7 := jane_row_t2]})) =
    Ok ("Patient " ++ name jane_row_t2 ++ " deleted successfully", 200) /\
  db (snd (PatientItem_delete ∅ 7 (idle {[1 := jane_row_t1; 7 := jane_row_t2]}))) =
    delete 7 (db (idle {[1 := jane_row_t1; 7 := jane_row_t2]})) /\
  exchange (snd (PatientItem_delete ∅ 7 (idle {[1 := jane_row_t1; 7 := jane_row_t2]}))) =
    (exchange (idle {[1 := jane_row_t1; 7 := jane_row_t2]}) ++
     [PDict (event_of "delete" 7 (name jane_row_t2) (age jane_row_t2)
               (diagnosis_TEXT jane_row_t2) (isoformat (last_update jane_row_t2))
               (HOSPITAL_ID ∅))])%list.
Proof.
  apply (item_delete_removes_record ∅ 7 jane_row_t2
           (idle {[1 := jane_row_t1; 7 := jane_row_t2]})); vm_compute; reflexivity.
Defined.

(** X16. [DELETE /patients] leaves the committed table empty in every
    case. With the broker reachable it answers 200 with the number of rows
    the table held and publishes one [delete_all] event whose record fields
    are all null; with the broker unreachable the connection error escapes
    the handler after the commit, and nothing is published. *)
Theorem collection_delete_clears_table (environ : gmap string string) (w : world) :
  db (snd (PatientCollection_delete environ w)) = ∅ /\
  if broker_up w
  then fst (PatientCollection_delete environ w) =
         Ok ("Deleted " ++ pretty (Z.of_nat (size (db w))) ++ " patients", 200) /\
       exchange (snd (PatientCollection_delete environ w)) =
         (exchange w ++ [PDict [("action", PStr "delete_all"); ("id", PNone);
                                ("name", PNone); ("age", PNone);
                                ("diagnosis_TEXT", PNone); ("last_update", PNone);
                                ("origin", PStr (HOSPITAL_ID environ))]])%list
  else fst (PatientCollection_delete environ w) = Raise AMQPConnectionError /\
       exchange (snd (PatientCollection_delete environ w)) = exchange w.
Proof.
  rewrite (collection_delete_clears environ w). split; [reflexivity|].
  destruct (broker_up w); split; reflexivity.
Qed.

Lemma missing_record_404_witness :
  let w' := mk_world (db (idle {[1 := jane_row_t1]})) (db (idle {[1 := jane_row_t1]})) []
              (clock (idle {[1 := jane_row_t1]})) (exchange (idle {[1 := jane_row_t1]}))
              (broker_up (idle {[1 := jane_row_t1]}))
              (trace (idle {[1 := jane_row_t1]}) ++ [OpQueryGet (PInt 5); OpRemove]) in
  (forall req, PatientItem_put ∅ 5 req (idle {[1 := jane_row_t1]}) =
               (Ok ("Patient not found", 404), w')) /\
  PatientItem_delete ∅ 5 (idle {[1 := jane_row_t1]}) = (Ok ("Patient not found", 404), w') /\
  PatientItem_get 5 (idle {[1 := jane_row_t1]}) = (Ok (inl ("Patient not found", 404)), w').
Proof.
  apply (missing_record_404 ∅ 5 (idle {[1 := jane_row_t1]})); vm_compute; reflexivity.
Defined.

Lemma post_integrity_error_rolls_back_witness :
  PatientCollection_post ∅
    (mk_request true
       (Some (PDict [("name", PNone); ("age", PInt 40); ("diagnosis_TEXT", PStr "flu")])))
    (idle ∅) =
  (Ok ("Database integrity error - possible duplicate entry", 400),
   mk_world (db (idle ∅)) (db (idle ∅)) [] (clock (idle ∅)) (exchange (idle ∅))
            (broker_up (idle ∅))
            (trace (idle ∅) ++ [OpAdd; OpCommit; OpRollback; OpRemove])).
Proof.
  apply (post_integrity_error_rolls_back ∅
           (mk_request true
              (Some (PDict [("name", PNone); ("age", PInt 40); ("diagnosis_TEXT", PStr "flu")])))
           [("name", PNone); ("age", PInt 40); ("diagnosis_TEXT", PStr "flu")]
           (PInt 40) 40 (PStr "flu") (idle ∅)); vm_compute; reflexivity.
Defined.

(** ** The reading handlers, as their callers see them *)

(** X20. [GET /patients], for a table whose timestamps have four-digit years,
    returns one item for each committed row, in the order of the ids, each
    showing the row's name, age, diagnosis and formatted last_update and
    nothing else (no id). *)
Theorem get_patients_lists_rows (w : world) :
  Forall (fun zr => 1000 <= year (last_update zr.2)) (rows_by_id (db w)) ->
  exists l,
    fst (PatientCollection_get w) = Ok (PList l) /\
    mapM show_row (rows_by_id (db w)) = Some l /\
    length l = size (db w) /\
    Forall (fun item => dict_keys item = ["name"; "age"; "diagnosis_TEXT"; "last_update"]) l.
Proof.
  intros Hy. destruct (shows_all _ Hy) as [l Hl]. exists l.
  rewrite (collection_get_lists l w Hl). split; [reflexivity|]. split; [assumption|].
  apply mapM_Some in Hl. split.
  - rewrite <- (Forall2_length _ _ _ Hl). apply rows_by_id_length.
  - clear Hy. induction Hl as [|zr item rows l Hitem _ IH]; constructor; [|assumption].
    unfold show_row in Hitem. destruct (strftime _); [|discriminate].
    now injection Hitem as <-.
Qed.

Lemma get_patients_lists_rows_witness :
  exists l,
    fst (PatientCollection_get (idle {[7 := jane_row_t2; 1 := jane_row_t1]})) = Ok (PList l) /\
    mapM show_row (rows_by_id (db (idle {[7 := jane_row_t2; 1 := jane_row_t1]}))) = Some l /\
    length l = size (db (idle {[7 := jane_row_t2; 1 := jane_row_t1]})) /\
    Forall (fun item => dict_keys item = ["name"; "age"; "diagnosis_TEXT"; "last_update"]) l.
Proof.
  apply (get_patients_lists_rows (idle {[7 := jane_row_t2; 1 := jane_row_t1]})).
  vm_compute. repeat constructor; discriminate.
Defined.

(** X21. [GET /patients/<id>] for an id that has a row (with a four-digit
    year) returns the row's name, age, diagnosis and formatted last_update;
    nothing is committed or published. *)
Theorem get_patient_shows_row i r ts (w : world) :
  is_int64 i = true -> db w !! i = Some r ->
  strftime (last_update r) = Some ts ->
  fst (PatientItem_get i w) = Ok (inr (shown r ts)) /\
  db (snd (PatientItem_get i w)) = db w /\
  exchange (snd (PatientItem_get i w)) = exchange w.
Proof.
  intros Hi64 Hi Hts. rewrite (item_get_shows i r ts w Hi64 Hi Hts). repeat split.
Qed.

Lemma get_patient_shows_row_witness :
  fst (PatientItem_get 1 (idle {[1 := jane_row_t1]})) =
    Ok (inr (shown jane_row_t1 "2026-03-01 08:00:00")) /\
  db (snd (PatientItem_get 1 (idle {[1 := jane_row_t1]}))) = db (idle {[1 := jane_row_t1]}) /\
  exchange (snd (PatientItem_get 1 (idle {[1 := jane_row_t1]}))) =
    exchange (idle {[1 := jane_row_t1]}).
Proof.
  apply (get_patient_shows_row 1 jane_row_t1 "2026-03-01 08:00:00" (idle {[1 := jane_row_t1]}));
    vm_compute; reflexivity.
Defined.

(** X22. Read your write: after a [POST /patients] that committed its row
    (whether or not the broker could then be reached), a
    [GET /patients/<id>] of the id it assigned returns the posted name, the
    age as an integer, the posted diagnosis and the formatted time of the
    call. *)
Theorem post_then_get
    (environ : gmap string string) req d n va a g z ts (w : world) :
  is_json req = true -> json req = Some (PDict d) ->
  dict_get d "name" = Some (PStr n) ->
  dict_get d "age" = Some va -> py_int va = Ok a -> is_int64 a = true ->
  dict_get d "diagnosis_TEXT" = Some (PStr g) ->
  next_rowid (db w) = Ok z ->
  strftime (clock w) = Some ts ->
  fst (PatientItem_get z (snd (PatientCollection_post environ req w))) =
    Ok (inr (PDict [("name", PStr n); ("age", PInt a); ("diagnosis_TEXT", PStr g);
                    ("last_update", PStr ts)])).
Proof.
  intros Hj Hd Hn Ha Hint Ha64 Hg Hz Hts.
  rewrite (post_creates environ req d n va a g z w Hj Hd Hn Ha Hint Ha64 Hg Hz).
  cbn [snd].
  erewrite (item_get_shows z (mk_Patient n a g (clock w)) ts);
    [ reflexivity
    | exact (next_rowid_int64 _ _ Hz)
    | apply lookup_insert_eq
    | exact Hts ].
Qed.

Lemma post_then_get_witness :
  fst (PatientItem_get 1 (snd (PatientCollection_post ∅ jane_request (idle ∅)))) =
    Ok (inr (PDict [("name", PStr "Jane"); ("age", PInt 40); ("diagnosis_TEXT", PStr "flu");
                    ("last_update", PStr "2026-03-09 12:00:00")])).
Proof.
  apply (post_then_get ∅ jane_request
           [("name", PStr "Jane"); ("age", PInt 40); ("diagnosis_TEXT", PStr "flu")]
           "Jane" (PInt 40) 40 "flu" 1 "2026-03-09 12:00:00" (idle ∅));
    vm_compute; reflexivity.
Defined.

(** ** Witnesses of the statements about two nodes *)

Lemma created_record_replicates_witness :
  exists e,
    exchange (snd (PatientCollection_post ∅ jane_request (idle ∅))) =
      (exchange (idle ∅) ++ [e])%list /\
    db (snd (PatientCollection_post ∅ jane_request (idle ∅))) !! 1 =
      Some (mk_Patient "Jane" 40 "flu" (clock (idle ∅))) /\
    fst (callback hospital_b_env (Encodes e) (idle {[7 := jane_row_t2]})) = Ok tt /\
    db (snd (callback hospital_b_env (Encodes e) (idle {[7 := jane_row_t2]}))) =
      <[1 := mk_Patient "Jane" 40 "flu" (clock (idle ∅))]> (db (idle {[7 := jane_row_t2]})).
Proof.
  refine (created_record_replicates ∅ hospital_b_env _ jane_request
            [("name", PStr "Jane"); ("age", PInt 40); ("diagnosis_TEXT", PStr "flu")]
            "Jane" (PInt 40) 40 "flu" 1 (idle ∅) (idle {[7 := jane_row_t2]})
            _ _ _ _ _ _ _ _ _ _ _);
    vm_compute; first [ reflexivity | discriminate ].
Defined.

Lemma updated_record_not_replicated_witness :
  exists e,
    exchange (snd (PatientItem_put ∅ 1 jane_request (idle {[1 := jane_row_t2]}))) =
      (exchange (idle {[1 := jane_row_t2]}) ++ [e])%list /\
    db (snd (PatientItem_put ∅ 1 jane_request (idle {[1 := jane_row_t2]}))) !! 1 =
      Some (mk_Patient "Jane" 40 "flu" (clock (idle {[1 := jane_row_t2]}))) /\
    fst (callback hospital_b_env (Encodes e) (idle {[1 := jane_row_t2]})) = Ok tt /\
    db (snd (callback hospital_b_env (Encodes e) (idle {[1 := jane_row_t2]}))) =
      db (idle {[1 := jane_row_t2]}).
Proof.
  refine (updated_record_not_replicated ∅ hospital_b_env _ 1 jane_request
            [("name", PStr "Jane"); ("age", PInt 40); ("diagnosis_TEXT", PStr "flu")]
            "Jane" (PInt 40) 40 "flu" jane_row_t2 jane_row_t2
            (idle {[1 := jane_row_t2]}) (idle {[1 := jane_row_t2]})
            _ _ _ _ _ _ _ _ _ _ _ _);
    vm_compute; first [ reflexivity | discriminate ].
Defined.

Lemma deleted_record_replicates_witness :
  exists e,
    exchange (snd (PatientItem_delete ∅ 1 (idle {[1 := jane_row_t1]}))) =
      (exchange (idle {[1 := jane_row_t1]}) ++ [e])%list /\
    db (snd (PatientItem_delete ∅ 1 (idle {[1 := jane_row_t1]}))) =
      delete 1 (db (idle {[1 := jane_row_t1]})) /\
    fst (callback hospital_b_env (Encodes e) (idle {[1 := jane_row_t1; 7 := jane_row_t2]}))
      = Ok tt /\
    db (snd (callback hospital_b_env (Encodes e) (idle {[1 := jane_row_t1; 7 := jane_row_t2]})))
      = delete 1 (db (idle {[1 := jane_row_t1; 7 := jane_row_t2]})).
Proof.
  refine (deleted_record_replicates ∅ hospital_b_env _ 1 jane_row_t1
            (idle {[1 := jane_row_t1]}) (idle {[1 := jane_row_t1; 7 := jane_row_t2]})
            _ _ _);
    vm_compute; first [ reflexivity | discriminate ].
Defined.

Lemma clear_all_replicates_witness :
  exists e,
    exchange (snd (PatientCollection_delete ∅ (idle {[1 := jane_row_t1]}))) =
      (exchange (idle {[1 := jane_row_t1]}) ++ [e])%list /\
    db (snd (PatientCollection_delete ∅ (idle {[1 := jane_row_t1]}))) = ∅ /\
    fst (callback hospital_b_env (Encodes e) (idle {[7 := jane_row_t2]})) = Ok tt /\
    db (snd (callback hospital_b_env (Encodes e) (idle {[7 := jane_row_t2]}))) = ∅.
Proof.
  refine (clear_all_replicates ∅ hospital_b_env _
            (idle {[1 := jane_row_t1]}) (idle {[7 := jane_row_t2]}) _);
    vm_compute; first [ reflexivity | discriminate ].
Defined.

Lemma same_identifier_nodes_discard_witness :
  exists new,
    exchange (snd (handle ∅ (DELETE_patient 1) (idle {[1 := jane_row_t1]}))) =
      (exchange (idle {[1 := jane_row_t1]}) ++ new)%list /\
    Forall (fun e => callback ∅ (Encodes e) (idle {[1 := jane_row_t1]}) =
                     (Ok tt, idle {[1 := jane_row_t1]})) new.
Proof.
  apply (same_identifier_nodes_discard ∅ ∅ (DELETE_patient 1)
           (idle {[1 := jane_row_t1]}) (idle {[1 := jane_row_t1]})).
  reflexivity.
Defined.

Lemma events_of_different_records_commute_witness :
  db (snd (start_consumer ∅ [Encodes (PDict jane_t1);
                             Encodes (PDict (event_of "delete" 7 "Jane" 41 "pneumonia"
                                               "2026-03-02T08:00:00" "hospital_b"))]
             (idle {[7 := jane_row_t2]}))) =
  db (snd (start_consumer ∅ [Encodes (PDict (event_of "delete" 7 "Jane" 41 "pneumonia"
                                               "2026-03-02T08:00:00" "hospital_b"));
                             Encodes (PDict jane_t1)]
             (idle {[7 := jane_row_t2]}))).
Proof.
  apply (events_of_different_records_commute ∅ jane_t1
           (event_of "delete" 7 "Jane" 41 "pneumonia" "2026-03-02T08:00:00" "hospital_b")
           (CreateIfAbsent 1 jane_row_t1) (Remove 7) (idle {[7 := jane_row_t2]})).
  - apply (effect_upsert ∅ jane_t1 (PStr "hospital_b") 1 "Jane" 40 "flu"
             "2026-03-01T08:00:00" t1).
    + reflexivity.
    + reflexivity.
    + split; vm_compute; reflexivity.
    + reflexivity.
  - apply (effect_delete ∅ _ (PStr "hospital_b") 7).
    + reflexivity.
    + reflexivity.
    + split; reflexivity.
  - intros k [H1 H2]. cbn in H1, H2. lia.
Defined.
